(** * rk-gin interceptors: a shallow embedding of the Go sources

    The development embeds the metrics interceptor
    ([interceptor/metrics/prom/interceptor.go]), the tracing option set
    ([interceptor/tracing/telemetry/options.go]) and the panic interceptor
    ([interceptor/panic/interceptor.go]) and states the properties of the
    specification about them.

    Conventions.
    - A Go pointer or interface value that may be nil is an [option]; [None]
      is nil.
    - A [map[string]T] is a [gmap string T].
    - Objects that are shared through pointers and mutated (option sets,
      metrics sets, events) live in a heap indexed by their address.
    - Code that can panic runs in the monad [M]: a computation on a world
      either returns or panics with a value, and in both cases leaves a
      world behind, which is what a deferred function sees. *)

From Stdlib Require Import ZArith String List Lia Bool Ascii DecimalString.
From stdpp Require Import base option list gmap strings.

Open Scope string_scope.
Open Scope list_scope.

(* ================================================================== *)
(** * Go values and library interfaces *)
(* ================================================================== *)

Module Go.

(** [strings.HasPrefix(s, prefix)] *)
Definition HasPrefix (s prefix : string) : bool := String.prefix prefix s.

(** [strconv.Itoa(i)] *)
Definition Itoa (i : Z) : string := NilZero.string_of_int (Z.to_int i).

(** A value of interface type [error], given by its [Error()] text. *)
Record error := MkGoError { ErrorText : string }.

(** The run-time panic raised by a field access through a nil pointer. *)
Definition nilDereference : error :=
  MkGoError "runtime error: invalid memory address or nil pointer dereference".

(** [strings.HasSuffix(s, suffix)] *)
Definition HasSuffix (s suffix : string) : bool :=
  Nat.leb (String.length suffix) (String.length s) &&
  String.eqb
    (String.substring (String.length s - String.length suffix) (String.length suffix) s)
    suffix.

(** [strings.TrimPrefix(s, prefix)] *)
Definition TrimPrefix (s prefix : string) : string :=
  if HasPrefix s prefix
  then String.substring (String.length prefix) (String.length s - String.length prefix) s
  else s.

(** [strings.TrimSuffix(s, suffix)] *)
Definition TrimSuffix (s suffix : string) : string :=
  if HasSuffix s suffix
  then String.substring 0 (String.length s - String.length suffix) s
  else s.

(** [strconv.FormatUint(i, 10)] *)
Definition FormatUint (i : N) : string := NilZero.string_of_uint (N.to_uint i).

End Go.

(** The structured error response of [rk-common/error]; the library is not
    part of the repository, its values are described by the JSON shape
    [{"error": {code, status, message, details}}] they are rendered to. *)
Module rkerror.

Record Error := MkError {
  Code : Z;
  Status : string;
  Message : string;
  Details : list string
}.

Record ErrorResp := MkErrorResp { Err : Error }.

(** The two constructors of the library the panic interceptor calls,
    [FromError(err)] and [New(WithMessage(msg))]; both return a pointer
    to a freshly built response. *)
Record Lib := MkLib {
  FromError : Go.error -> ErrorResp;
  NewWithMessage : string -> ErrorResp
}.

End rkerror.

Module runtime.

(** The dynamic values a [panic] can carry, as far as the type switch of
    the panic interceptor tells them apart.  A [*rkerror.ErrorResp] is a
    pointer: an interface holding a nil pointer of that type is not a nil
    interface, so [recover] returns it and the type assertion succeeds.
    A value of any other type is given by its [%v] rendering.
    [panic(nil)] is left out: what [recover] returns for it depends on
    the Go release. *)
Inductive any :=
| ErrorRespPtr (p : option rkerror.ErrorResp)
| ErrorValue (e : Go.error)
| OtherValue (repr : string).

(** Computations that may panic. *)
Section Monad.
Context {W : Type}.

Inductive outcome (A : Type) :=
| Returned (a : A) (w : W)
| Panicked (v : any) (w : W).

Definition M (A : Type) : Type := W -> outcome A.

Definition ret {A} (a : A) : M A := fun w => Returned A a w.

Definition bind {A B} (c : M A) (k : A -> M B) : M B :=
  fun w => match c w with
           | Returned _ a w' => k a w'
           | Panicked _ v w' => Panicked B v w'
           end.

Definition panic {A} (v : any) : M A := fun w => Panicked A v w.

Definition get : M W := fun w => Returned W w w.

Definition modify (f : W -> W) : M unit := fun w => Returned unit tt (f w).

(** [defer func() { if recv := recover(); recv != nil { handler } }()]
    followed by [body]: the handler runs on the world the panic left;
    when the handler panics in turn, that panic propagates. *)
Definition deferRecover (body : M unit) (handler : any -> M unit) : M unit :=
  fun w => match body w with
           | Returned _ _ w' => Returned unit tt w'
           | Panicked _ v w' => handler v w'
           end.

(** The world a computation leaves, however it ends. *)
Definition worldOf {A} (o : outcome A) : W :=
  match o with
  | Returned _ _ w => w
  | Panicked _ _ w => w
  end.

Definition returned {A} (o : outcome A) : bool :=
  match o with
  | Returned _ _ _ => true
  | Panicked _ _ _ => false
  end.

End Monad.

Arguments outcome : clear implicits.
Arguments M : clear implicits.
Arguments Returned {W A} a w.
Arguments Panicked {W A} v w.

End runtime.

Declare Scope go_scope.
Delimit Scope go_scope with go.
Notation "x <- c1 ;; c2" := (runtime.bind c1 (fun x => c2))
  (at level 100, c1 at next level, right associativity) : go_scope.
Notation "c1 ;; c2" := (runtime.bind c1 (fun _ => c2))
  (at level 100, right associativity) : go_scope.

(** Events of [rk-query]: an event is an object behind an interface; the
    inert event ignores every update, a live one is a cell of the event
    heap. *)
Module rkquery.

Inductive Event :=
| EventNoop
| EventRef (l : nat).

Record EventData := MkEventData {
  Counters : gmap string Z;
  Errs : list rkerror.Error
}.

Definition heap := list EventData.

(** [event.SetCounter(key, value)] *)
Definition SetCounter (ev : Event) (key : string) (value : Z) (h : heap) : heap :=
  match ev with
  | EventNoop => h
  | EventRef l =>
      match h !! l with
      | Some d => <[l := MkEventData (<[key := value]> (Counters d)) (Errs d)]> h
      | None => h
      end
  end.

(** [event.AddErr(err)] *)
Definition AddErr (ev : Event) (err : rkerror.Error) (h : heap) : heap :=
  match ev with
  | EventNoop => h
  | EventRef l =>
      match h !! l with
      | Some d => <[l := MkEventData (Counters d) (Errs d ++ [err])]> h
      | None => h
      end
  end.

End rkquery.

(** Loggers of [zap]: the no-op logger discards, another logger appends
    an entry to the log. *)
Module zap.

Inductive Level := InfoLevel | WarnLevel | ErrorLevel.

Inductive Field :=
| String (key value : string)
| Error (err : rkerror.Error).

Inductive Logger :=
| Nop
| Core (context : list Field).

Record Entry := MkEntry {
  EntryLevel : Level;
  EntryMessage : string;
  EntryFields : list Field
}.

(** [logger.With(fields...)] *)
Definition With (l : Logger) (fields : list Field) : Logger :=
  match l with
  | Nop => Nop
  | Core c => Core (c ++ fields)
  end.

(** [logger.Error(msg, fields...)] *)
Definition LogError (l : Logger) (msg : string) (fields : list Field)
    (log : list Entry) : list Entry :=
  match l with
  | Nop => log
  | Core c => log ++ [MkEntry ErrorLevel msg (c ++ fields)]
  end.

End zap.

(** The parts of the OpenTelemetry SDK the option set is built from.  The
    SDK is a library: its objects are described by the calls that build
    them. *)
Module sdktrace.

Inductive SpanExporter :=
| NoopExporter
| StdoutExporter (outputPath : string)
| JaegerExporter (endpoint username password : string).

Inductive SpanProcessor :=
| BatchSpanProcessor (e : SpanExporter)
| SimpleSpanProcessor (e : SpanExporter).

Inductive Sampler := AlwaysSample | NeverSample.

Inductive TracerProviderOption :=
| WithSampler (s : Sampler)
| WithSpanProcessor (p : SpanProcessor)
| WithResource (attributes : list (string * string)).

(** [sdktrace.NewTracerProvider(opts...)] *)
Record TracerProvider := NewTracerProvider { Options : list TracerProviderOption }.

End sdktrace.

Module oteltrace.

Inductive TracerProvider :=
| NoopTracerProvider
| SdkTracerProvider (p : sdktrace.TracerProvider).

(** A tracer is obtained from a provider by
    [provider.Tracer(name, WithInstrumentationVersion(version))]; the
    no-op provider hands out the no-op tracer whatever the name. *)
Inductive Tracer :=
| NoopTracer
| SdkTracer (provider : sdktrace.TracerProvider) (name : string) (version : string).

Inductive Span :=
| NoopSpan
| RecordingSpan (tracer : Tracer) (name : string).

End oteltrace.

Module propagation.

#[warnings="-register-all"] Inductive TextMapPropagator :=
| TraceContext
| Baggage
| NewCompositeTextMapPropagator (ps : list TextMapPropagator).

End propagation.

(** Requests of [net/http] and their URLs. *)
Module url.

Record URL := MkURL { Path : string }.

End url.

Module http.

Record Request := MkRequest {
  Method : string;
  URL : option url.URL;
  RequestURI : string
}.

End http.

(** The request context of [gin]. *)
Module gin.

(** The values interceptors store under the keys of a context. *)
Inductive value :=
| VString (s : string)
| VEvent (e : rkquery.Event)
| VLogger (l : zap.Logger)
| VSpan (s : oteltrace.Span)
| VTracer (t : oteltrace.Tracer)
| VTracerProvider (p : oteltrace.TracerProvider)
| VPropagator (p : propagation.TextMapPropagator).

(** What has been written to the client: an object rendered as JSON (a
    pointer, nil renders as [null]) or raw bytes. *)
Inductive payload :=
| JSONBody (obj : option rkerror.ErrorResp)
| RawBody (data : string).

Record ResponseWriter := MkResponseWriter {
  StatusCode : Z;
  HeaderMap : gmap string (list string);
  Body : list payload
}.

Record Context := MkContext {
  Request : option http.Request;
  Writer : option ResponseWriter;
  Keys : gmap string value;
  Errors : list Go.error
}.

(** [header.Get(key)]: the first value stored under the key, or the
    empty string. *)
Definition HeaderGet (h : gmap string (list string)) (key : string) : string :=
  match h !! key with
  | Some (v :: _) => v
  | _ => ""
  end.

(** [ctx.Get(key)] *)
Definition Get (c : Context) (key : string) : option value := Keys c !! key.

(** [ctx.GetString(key)]: the empty string unless a string is stored. *)
Definition GetString (c : Context) (key : string) : string :=
  match Get c key with
  | Some (VString s) => s
  | _ => ""
  end.

(** [ctx.Set(key, v)] *)
Definition Set_ (c : Context) (key : string) (v : value) : Context :=
  MkContext (Request c) (Writer c) (<[key := v]> (Keys c)) (Errors c).

(** [writer.Status()] *)
Definition Status (w : ResponseWriter) : Z := StatusCode w.

(** [ctx.JSON(code, obj)] on a writer: the status is set, the content
    type is set unless the header has one, the object is written. *)
Definition WriteJSON (code : Z) (obj : option rkerror.ErrorResp)
    (w : ResponseWriter) : ResponseWriter :=
  MkResponseWriter code
    (match HeaderMap w !! "Content-Type" with
     | Some (_ :: _) => HeaderMap w
     | _ => <["Content-Type" := ["application/json; charset=utf-8"]]> (HeaderMap w)
     end)
    (Body w ++ [JSONBody obj]).

End gin.

(** The constants of package [rkgininter] ([interceptor/context.go] is not
    among the sources): the keys under which interceptors store their
    state, and the default entry name and type. *)
Module rkgininter.

Record Consts := MkConsts {
  RpcEntryNameKey : string;
  RpcEntryNameValue : string;
  RpcEntryTypeValue : string;
  RpcEventKey : string;
  RpcLoggerKey : string;
  RpcSpanKey : string;
  RpcTracerKey : string;
  RpcTracerProviderKey : string;
  RpcPropagatorKey : string
}.

End rkgininter.

(* ================================================================== *)
(** * Package rkginctx: the request-context getters *)
(* ================================================================== *)

Module rkginctx.

(** The header names, as the READMEs of the examples give them. *)
Definition RequestIdKey : string := "X-Request-Id".
Definition TraceIdKey : string := "X-Trace-Id".

(** Modelled from the spec: the declarations of the package variables are
    missing; the tests of the package name [noopEvent],
    [rklogger.NoopLogger] and [noopTracerProvider], and 4.1 describes them
    as the inert event, the discard logger and the no-op provider. *)
Definition noopEvent : rkquery.Event := rkquery.EventNoop.
Definition NoopLogger : zap.Logger := zap.Nop.
Definition noopTracerProvider : oteltrace.TracerProvider := oteltrace.NoopTracerProvider.

Section Getters.
Variable K : rkgininter.Consts.

(** Modelled from the spec: the body of [GetRequestId] is missing (only
    the tests of the package are among the sources); per 4.1 and
    [TestGetRequestId] it is the value of the response header
    [RequestIdKey], and the empty string on a nil context or writer. *)
Definition GetRequestId (ctx : option gin.Context) : string :=
  match ctx with
  | None => ""
  | Some c =>
      match gin.Writer c with
      | None => ""
      | Some w => gin.HeaderGet (gin.HeaderMap w) RequestIdKey
      end
  end.

(** Modelled from the spec: the body of [GetTraceId] is missing; per 4.1
    and [TestGetTraceId] it is the value of the response header
    [TraceIdKey], and the empty string on a nil context or writer. *)
Definition GetTraceId (ctx : option gin.Context) : string :=
  match ctx with
  | None => ""
  | Some c =>
      match gin.Writer c with
      | None => ""
      | Some w => gin.HeaderGet (gin.HeaderMap w) TraceIdKey
      end
  end.

(** Modelled from the spec: the body of [GetEvent] is missing; per 4.1 and
    [TestGetEvent] it is the event stored under [RpcEventKey], and
    [noopEvent] on a nil context or when no event is stored. *)
Definition GetEvent (ctx : option gin.Context) : rkquery.Event :=
  match ctx with
  | None => noopEvent
  | Some c =>
      match gin.Get c (rkgininter.RpcEventKey K) with
      | Some (gin.VEvent e) => e
      | _ => noopEvent
      end
  end.

(** Modelled from the spec: the body of [GetLogger] is missing; per 4.1,
    [TestGetLogger] and the READMEs it is the logger stored under
    [RpcLoggerKey] with the request id and the trace id attached when
    they are set, and [NoopLogger] on a nil context or when no logger is
    stored. *)
Definition GetLogger (ctx : option gin.Context) : zap.Logger :=
  match ctx with
  | None => NoopLogger
  | Some c =>
      match gin.Get c (rkgininter.RpcLoggerKey K) with
      | Some (gin.VLogger l) =>
          let requestId := GetRequestId ctx in
          let traceId := GetTraceId ctx in
          zap.With l
            ((if decide (requestId = "") then [] else [zap.String "requestId" requestId]) ++
             (if decide (traceId = "") then [] else [zap.String "traceId" traceId]))
      | _ => NoopLogger
      end
  end.

(** Modelled from the spec: the body of [GetEntryName] is missing; per 4.1
    and [TestGetEntryName] it is the string stored under
    [RpcEntryNameKey], and the empty string otherwise. *)
Definition GetEntryName (ctx : option gin.Context) : string :=
  match ctx with
  | None => ""
  | Some c => gin.GetString c (rkgininter.RpcEntryNameKey K)
  end.

(** Modelled from the spec: the body of [GetTraceSpan] is missing; per 4.5
    and [TestGetTraceSpan] it is the span stored under [RpcSpanKey], and a
    span of the no-op tracer provider otherwise. *)
Definition GetTraceSpan (ctx : option gin.Context) : option oteltrace.Span :=
  match ctx with
  | None => Some oteltrace.NoopSpan
  | Some c =>
      match gin.Get c (rkgininter.RpcSpanKey K) with
      | Some (gin.VSpan s) => Some s
      | _ => Some oteltrace.NoopSpan
      end
  end.

(** Modelled from the spec: the body of [GetTracer] is missing; per 4.5
    and [TestGetTracer] it is the tracer stored under [RpcTracerKey], and
    a tracer of the no-op tracer provider otherwise. *)
Definition GetTracer (ctx : option gin.Context) : option oteltrace.Tracer :=
  match ctx with
  | None => Some oteltrace.NoopTracer
  | Some c =>
      match gin.Get c (rkgininter.RpcTracerKey K) with
      | Some (gin.VTracer t) => Some t
      | _ => Some oteltrace.NoopTracer
      end
  end.

(** Modelled from the spec: the body of [GetTracerProvider] is missing;
    per 4.5 and [TestGetTracerProvider] it is the provider stored under
    [RpcTracerProviderKey], and the no-op tracer provider otherwise. *)
Definition GetTracerProvider (ctx : option gin.Context) : option oteltrace.TracerProvider :=
  match ctx with
  | None => Some noopTracerProvider
  | Some c =>
      match gin.Get c (rkgininter.RpcTracerProviderKey K) with
      | Some (gin.VTracerProvider p) => Some p
      | _ => Some noopTracerProvider
      end
  end.

(** Modelled from the spec: the body of [GetTracerPropagator] is missing.
    [TestGetTracerPropagator] asserts [Nil] for the nil context and for a
    context without propagator, and the stored propagator otherwise; the
    model follows the test of the repository, not the sentence of 4.5. *)
Definition GetTracerPropagator (ctx : option gin.Context)
    : option propagation.TextMapPropagator :=
  match ctx with
  | None => None
  | Some c =>
      match gin.Get c (rkgininter.RpcPropagatorKey K) with
      | Some (gin.VPropagator p) => Some p
      | _ => None
      end
  end.

End Getters.

End rkginctx.

(* ================================================================== *)
(** * Package rkginpanic: the panic interceptor *)
(* ================================================================== *)

Module rkginpanic.

(** What a request handler acts on: the request context, the events it
    refers to, and the log. *)
Record World := MkWorld {
  Ctx : gin.Context;
  Events : rkquery.heap;
  Log : list zap.Entry
}.

Definition HandlerFunc := runtime.M World unit.

Definition newline : string := String "010"%char "".

Section Interceptor.
Variable K : rkgininter.Consts.
Variable E : rkerror.Lib.
(** [string(debug.Stack())] *)
Variable stack : string.

(** The type switch on the recovered value; the result is the pointer
    [res]. *)
Definition classify (recv : runtime.any) : option rkerror.ErrorResp :=
  match recv with
  | runtime.ErrorRespPtr se => se
  | runtime.ErrorValue re => Some (rkerror.FromError E re)
  | runtime.OtherValue repr => Some (rkerror.NewWithMessage E repr)
  end.

(** [res.Err]: a field access through the pointer. *)
Definition fieldErr (res : option rkerror.ErrorResp) : runtime.M World rkerror.Error :=
  match res with
  | Some r => runtime.ret (rkerror.Err r)
  | None => runtime.panic (runtime.ErrorValue Go.nilDereference)
  end.

(** [rkginctx.GetEvent(ctx).m(...)] for a method [m] of the event *)
Definition onEvent (m : rkquery.Event -> rkquery.heap -> rkquery.heap)
    : runtime.M World unit :=
  runtime.modify (fun w =>
    MkWorld (Ctx w) (m (rkginctx.GetEvent K (Some (Ctx w))) (Events w)) (Log w)).

(** [rkginctx.GetLogger(ctx).Error(msg, fields...)] *)
Definition logError (msg : string) (fields : list zap.Field) : runtime.M World unit :=
  runtime.modify (fun w =>
    MkWorld (Ctx w) (Events w)
      (zap.LogError (rkginctx.GetLogger K (Some (Ctx w))) msg fields (Log w))).

(** [ctx.JSON(code, obj)]; the writer of a context is an interface, and a
    call on a nil writer panics. *)
Definition JSON (code : Z) (obj : option rkerror.ErrorResp) : runtime.M World unit :=
  fun w =>
    match gin.Writer (Ctx w) with
    | None => runtime.Panicked (runtime.ErrorValue Go.nilDereference) w
    | Some wr =>
        runtime.Returned tt
          (MkWorld
             (gin.MkContext (gin.Request (Ctx w)) (Some (gin.WriteJSON code obj wr))
                (gin.Keys (Ctx w)) (gin.Errors (Ctx w)))
             (Events w) (Log w))
    end.

Definition StatusInternalServerError : Z := 500.

(** The deferred function, from [recv != nil] on. *)
Definition recovery (recv : runtime.any) : runtime.M World unit :=
  (let res := classify recv in
   onEvent (fun ev => rkquery.SetCounter ev "panic" 1) ;;
   err <- fieldErr res ;;
   onEvent (fun ev => rkquery.AddErr ev err) ;;
   err' <- fieldErr res ;;
   logError ("panic occurs:" +:+ newline +:+ stack) [zap.Error err'] ;;
   JSON StatusInternalServerError res)%go.

(** [Interceptor()] returns the handler; [next] is what [ctx.Next()]
    runs. *)
Definition Interceptor (next : HandlerFunc) : HandlerFunc :=
  runtime.deferRecover next recovery.

End Interceptor.

End rkginpanic.

(* ================================================================== *)
(** * Package rkginmetrics: the prometheus metrics interceptor *)
(* ================================================================== *)

Module prometheus.

(** A [prometheus.Registerer]; [DefaultRegisterer] is the global one. *)
Inductive Registerer :=
| DefaultRegisterer
| CustomRegisterer (id : nat).

End prometheus.

(** The metrics sets of [rk-prom].  The library is not part of the
    repository: the interceptor is embedded over any implementation of the
    calls it makes.  [GetSummaryWithValues] and [GetCounterWithValues]
    return an instrument or nil; the instrument itself is identified by
    the set, the name and the label values it was asked with. *)
Module rkprom.

Record Lib (MetricsSet : Type) := MkLib {
  NewMetricsSet : string -> string -> prometheus.Registerer -> MetricsSet;
  RegisterSummary : string -> list string -> MetricsSet -> MetricsSet;
  RegisterCounter : string -> list string -> MetricsSet -> MetricsSet;
  HasSummaryWithValues : MetricsSet -> string -> list string -> bool;
  HasCounterWithValues : MetricsSet -> string -> list string -> bool
}.

Arguments NewMetricsSet {MetricsSet} _ _ _ _.
Arguments RegisterSummary {MetricsSet} _ _ _ _.
Arguments RegisterCounter {MetricsSet} _ _ _ _.
Arguments HasSummaryWithValues {MetricsSet} _ _ _ _.
Arguments HasCounterWithValues {MetricsSet} _ _ _ _.

(** An instrument with its label values bound. *)
Record Instrument := MkInstrument {
  OfSet : nat;
  InstrumentName : string;
  LabelValues : list string
}.

(** What the instruments have been told. *)
Inductive Observation :=
| Observe (i : Instrument) (nanoseconds : Z)
| Inc (i : Instrument).

(** An implementation for the examples: a set records the label keys of
    the instruments registered in it, a second registration under a name
    is refused, and an instrument is handed out when the name is
    registered and the number of values is the number of keys. *)
Record TableSet := MkTableSet {
  SetAppName : string;
  SetEntryName : string;
  SetRegisterer : prometheus.Registerer;
  SummaryKeys : gmap string (list string);
  CounterKeys : gmap string (list string)
}.

Definition registerIn (name : string) (keys : list string)
    (table : gmap string (list string)) : gmap string (list string) :=
  match table !! name with
  | Some _ => table
  | None => <[name := keys]> table
  end.

Definition hasIn (table : gmap string (list string)) (name : string)
    (values : list string) : bool :=
  match table !! name with
  | Some keys => Nat.eqb (length keys) (length values)
  | None => false
  end.

Definition tables : Lib TableSet :=
  MkLib TableSet
    (fun app entry reg => MkTableSet app entry reg ∅ ∅)
    (fun name keys s =>
       MkTableSet (SetAppName s) (SetEntryName s) (SetRegisterer s)
         (registerIn name keys (SummaryKeys s)) (CounterKeys s))
    (fun name keys s =>
       MkTableSet (SetAppName s) (SetEntryName s) (SetRegisterer s)
         (SummaryKeys s) (registerIn name keys (CounterKeys s)))
    (fun s => hasIn (SummaryKeys s))
    (fun s => hasIn (CounterKeys s)).

(** The calls [clearAllMetrics] makes on a metrics set. *)
Record Unregister (MetricsSet : Type) := MkUnregister {
  UnRegisterSummary : string -> MetricsSet -> MetricsSet;
  UnRegisterCounter : string -> MetricsSet -> MetricsSet
}.

Arguments UnRegisterSummary {MetricsSet} _ _ _.
Arguments UnRegisterCounter {MetricsSet} _ _ _.

Definition tablesUnregister : Unregister TableSet :=
  MkUnregister TableSet
    (fun name s =>
       MkTableSet (SetAppName s) (SetEntryName s) (SetRegisterer s)
         (delete name (SummaryKeys s)) (CounterKeys s))
    (fun name s =>
       MkTableSet (SetAppName s) (SetEntryName s) (SetRegisterer s)
         (SummaryKeys s) (delete name (CounterKeys s))).

End rkprom.

(** The package-level values of [rkginbasic] and the application info of
    [rkentry.GlobalAppCtx] the interceptor reads; they are declared outside
    the sources at hand. *)
Module rkginbasic.

Record Vars := MkVars {
  RkEntryNameKey : string;
  RkEntryNameValue : string;
  RkEntryTypeValue : string;
  Realm : string;
  Region : string;
  AZ : string;
  Domain : string;
  LocalHostname : string
}.

End rkginbasic.

Module rkentry.

Record AppInfoEntry := MkAppInfoEntry {
  AppName : string;
  Version : string
}.

End rkentry.

Module rkginmetrics.

Definition DefaultLabelKeys : list string :=
  [ "entryName";
    "entryType";
    "realm";
    "region";
    "az";
    "domain";
    "instance";
    "appVersion";
    "appName";
    "restMethod";
    "restPath";
    "type";
    "resCode" ].

Definition ElapsedNano : string := "elapsedNano".
Definition Errors : string := "errors".
Definition ResCode : string := "resCode".
Definition unknown : string := "unknown".

(** [optionSet]; [MetricsSet] is a pointer into the heap of metrics
    sets. *)
Record optionSet := MkOptionSet {
  EntryName : string;
  EntryType : string;
  Registerer : option prometheus.Registerer;
  MetricsSet : option nat
}.

(** An [Option] is one of the two closures the package builds. *)
Inductive Option :=
| WithEntryNameAndType (entryName entryType : string)
| WithRegisterer (registerer : option prometheus.Registerer).

(** The closure applied to the option set. *)
Definition applyOption (o : Option) (opt : optionSet) : optionSet :=
  match o with
  | WithEntryNameAndType entryName entryType =>
      let opt1 :=
        if Nat.ltb 0 (String.length entryName)
        then MkOptionSet entryName (EntryType opt) (Registerer opt) (MetricsSet opt)
        else opt in
      if Nat.ltb 0 (String.length entryType)
      then MkOptionSet (EntryName opt1) entryType (Registerer opt1) (MetricsSet opt1)
      else opt1
  | WithRegisterer registerer =>
      match registerer with
      | Some _ => MkOptionSet (EntryName opt) (EntryType opt) registerer (MetricsSet opt)
      | None => opt
      end
  end.

(** [for i := range opts { opts[i](set) }] *)
Definition applyOptions (opts : list Option) (set : optionSet) : optionSet :=
  fold_left (fun s o => applyOption o s) opts set.

Section Package.
Variable B : rkginbasic.Vars.
Variable App : rkentry.AppInfoEntry.
Variable MS : Type.
Variable P : rkprom.Lib MS.

(** The package state: [optionsMap] holds pointers to option sets; the
    option sets and the metrics sets they point to live in heaps. *)
Record Registry := MkRegistry {
  optionsMap : gmap string nat;
  OptionSets : list optionSet;
  MetricsSets : list MS
}.

(** What a request handler acts on. *)
Record World := MkWorld {
  Ctx : gin.Context;
  Clock : Z;
  Reg : Registry;
  Observed : list rkprom.Observation
}.

Definition HandlerFunc := runtime.M World unit.

(** The option set after the options, before the metrics set is made. *)
Definition configured (opts : list Option) : optionSet :=
  applyOptions opts
    (MkOptionSet (rkginbasic.RkEntryNameValue B) (rkginbasic.RkEntryTypeValue B)
       (Some prometheus.DefaultRegisterer) None).

(** The entry name and the registerer the metrics set is made with: the
    two branches of [if len(set.EntryName) > 0 && set.Registerer != nil]. *)
Definition resolved (set : optionSet) : string * prometheus.Registerer :=
  match Nat.ltb 0 (String.length (EntryName set)), Registerer set with
  | true, Some registerer => (EntryName set, registerer)
  | _, _ => (rkginbasic.RkEntryNameValue B, prometheus.DefaultRegisterer)
  end.

(** [initMetrics(opts)]: the three instruments are registered in the
    metrics set the option set points to. *)
Definition initMetrics (ms : nat) (sets : list MS) : list MS :=
  match sets !! ms with
  | Some s =>
      <[ms :=
          rkprom.RegisterCounter P ResCode DefaultLabelKeys
            (rkprom.RegisterCounter P Errors DefaultLabelKeys
               (rkprom.RegisterSummary P ElapsedNano DefaultLabelKeys s))]> sets
  | None => sets
  end.

(** [MetricsPromInterceptor(opts...)] up to the [return]: the pointer to
    the option set the closure captures, and the package state. *)
Definition construct (opts : list Option) (r : Registry) : nat * Registry :=
  let set := configured opts in
  let '(entryName, registerer) := resolved set in
  let ms := length (MetricsSets r) in
  let sets := MetricsSets r ++ [rkprom.NewMetricsSet P (rkentry.AppName App) entryName registerer] in
  let set := MkOptionSet entryName (EntryType set) (Some registerer) (Some ms) in
  let addr := length (OptionSets r) in
  let heap := OptionSets r ++ [set] in
  match optionsMap r !! entryName with
  | Some _ => (addr, MkRegistry (optionsMap r) heap sets)
  | None => (addr, MkRegistry (<[entryName := addr]> (optionsMap r)) heap (initMetrics ms sets))
  end.

(** [GetOptionSet(ctx)]: the pointer found in [optionsMap], nil when the
    context is nil or the map has no entry. *)
Definition GetOptionSet (ctx : option gin.Context) (r : Registry) : option nat :=
  match ctx with
  | None => None
  | Some c => optionsMap r !! gin.GetString c (rkginbasic.RkEntryNameKey B)
  end.

(** The option set a pointer leads to. *)
Definition load (r : Registry) (set : option nat) : option optionSet :=
  match set with
  | Some addr => OptionSets r !! addr
  | None => None
  end.

(** [GetServerMetricsSet(ctx)] *)
Definition GetServerMetricsSet (ctx : option gin.Context) (r : Registry) : option nat :=
  match load r (GetOptionSet ctx r) with
  | Some set => MetricsSet set
  | None => None
  end.

(** [getValues(ctx)] *)
Definition getValues (ctx : option gin.Context) (r : Registry) : list string :=
  let '(method, path, resCode) :=
    match ctx with
    | Some c =>
        match gin.Request c with
        | Some req =>
            (http.Method req,
             match http.URL req with
             | Some u => url.Path u
             | None => unknown
             end,
             match gin.Writer c with
             | Some w => Go.Itoa (gin.Status w)
             | None => unknown
             end)
        | None => (unknown, unknown, unknown)
        end
    | None => (unknown, unknown, unknown)
    end in
  let '(entryName, entryType) :=
    match load r (GetOptionSet ctx r) with
    | Some set => (EntryName set, EntryType set)
    | None => (unknown, unknown)
    end in
  [ entryName;
    entryType;
    rkginbasic.Realm B;
    rkginbasic.Region B;
    rkginbasic.AZ B;
    rkginbasic.Domain B;
    rkginbasic.LocalHostname B;
    rkentry.Version App;
    rkentry.AppName App;
    method;
    path;
    "ginServer";
    resCode ].

(** [metricsSet.GetSummaryWithValues(name, values...)] and
    [metricsSet.GetCounterWithValues(name, values...)] on a pointer. *)
Definition GetSummaryWithValues (r : Registry) (ms : nat) (name : string)
    (values : list string) : option rkprom.Instrument :=
  match MetricsSets r !! ms with
  | Some s =>
      if rkprom.HasSummaryWithValues P s name values
      then Some (rkprom.MkInstrument ms name values)
      else None
  | None => None
  end.

Definition GetCounterWithValues (r : Registry) (ms : nat) (name : string)
    (values : list string) : option rkprom.Instrument :=
  match MetricsSets r !! ms with
  | Some s =>
      if rkprom.HasCounterWithValues P s name values
      then Some (rkprom.MkInstrument ms name values)
      else None
  | None => None
  end.

(** [GetServerDurationMetrics(ctx)] *)
Definition GetServerDurationMetrics (ctx : option gin.Context) (r : Registry)
    : option rkprom.Instrument :=
  match GetServerMetricsSet ctx r with
  | Some metricsSet => GetSummaryWithValues r metricsSet ElapsedNano (getValues ctx r)
  | None => None
  end.

(** [GetServerErrorMetrics(ctx)] *)
Definition GetServerErrorMetrics (ctx : option gin.Context) (r : Registry)
    : option rkprom.Instrument :=
  match ctx with
  | None => None
  | Some _ =>
      match GetServerMetricsSet ctx r with
      | Some metricsSet => GetCounterWithValues r metricsSet Errors (getValues ctx r)
      | None => None
      end
  end.

(** [GetServerResCodeMetrics(ctx)] *)
Definition GetServerResCodeMetrics (ctx : option gin.Context) (r : Registry)
    : option rkprom.Instrument :=
  match ctx with
  | None => None
  | Some _ =>
      match GetServerMetricsSet ctx r with
      | Some metricsSet => GetCounterWithValues r metricsSet ResCode (getValues ctx r)
      | None => None
      end
  end.

(** [time.Now()] *)
Definition now : runtime.M World Z := fun w => runtime.Returned (Clock w) w.

(** [ctx.Request.RequestURI]: the request is a pointer. *)
Definition requestURI : runtime.M World string :=
  fun w =>
    match gin.Request (Ctx w) with
    | Some req => runtime.Returned (http.RequestURI req) w
    | None => runtime.Panicked (runtime.ErrorValue Go.nilDereference) w
    end.

(** [if m := accessor(ctx); m != nil { m.tell }] *)
Definition whenAvailable
    (accessor : option gin.Context -> Registry -> option rkprom.Instrument)
    (tell : rkprom.Instrument -> rkprom.Observation) : runtime.M World unit :=
  fun w =>
    match accessor (Some (Ctx w)) (Reg w) with
    | Some m => runtime.Returned tt (MkWorld (Ctx w) (Clock w) (Reg w) (Observed w ++ [tell m]))
    | None => runtime.Returned tt w
    end.

(** The paths the interceptor does not measure. *)
Definition ignored (uri : string) : bool :=
  Go.HasPrefix uri "/rk/v1/assets" || Go.HasPrefix uri "/rk/v1/tv" || Go.HasPrefix uri "/sw/".

(** The closure [MetricsPromInterceptor] returns; [set] is the option set
    it captures and [next] is what [ctx.Next()] runs. *)
Definition handler (set : nat) (next : HandlerFunc) : HandlerFunc :=
  (startTime <- now ;;
   next ;;
   endTime <- now ;;
   let elapsed := (endTime - startTime)%Z in
   uri <- requestURI ;;
   if negb (Go.HasPrefix uri "/rk/v1/assets") &&
      negb (Go.HasPrefix uri "/rk/v1/tv") &&
      negb (Go.HasPrefix uri "/sw/")
   then
     whenAvailable GetServerDurationMetrics (fun m => rkprom.Observe m elapsed) ;;
     (errors <- (fun w => runtime.Returned (gin.Errors (Ctx w)) w) ;;
      if Nat.ltb 0 (length errors)
      then whenAvailable GetServerErrorMetrics rkprom.Inc
      else runtime.ret tt) ;;
     whenAvailable GetServerResCodeMetrics rkprom.Inc
   else runtime.ret tt)%go.

(** [MetricsPromInterceptor(opts...)] *)
Definition MetricsPromInterceptor (opts : list Option) (r : Registry)
    : (HandlerFunc -> HandlerFunc) * Registry :=
  let '(set, r') := construct opts r in
  (handler set, r').

Variable U : rkprom.Unregister MS.

(** [for _, v := range optionsMap] visits the entries in an order Go does
    not fix; the embedding visits them in the order of [map_to_list], and
    the properties stated of it do not depend on the order. *)

(** [ListServerMetricsSets()]: the metrics-set pointer of every option set
    in [optionsMap]. *)
Definition ListServerMetricsSets (r : Registry) : list (option nat) :=
  (fun entry : string * nat =>
     match OptionSets r !! entry.2 with
     | Some v => MetricsSet v
     | None => None
     end) <$> map_to_list (optionsMap r).

(** The body of the loop of [clearAllMetrics] for the option set at
    [addr]: the three instruments are unregistered from its metrics
    set.  Every option set in [optionsMap] was given a metrics set before
    it was stored, so the pointers are not nil; on a pointer that leads
    nowhere the embedding changes nothing. *)
Definition unregisterAll (heap : list optionSet) (sets : list MS) (addr : nat) : list MS :=
  match heap !! addr with
  | Some v =>
      match MetricsSet v with
      | Some ms =>
          match sets !! ms with
          | Some s =>
              <[ms :=
                  rkprom.UnRegisterCounter U ResCode
                    (rkprom.UnRegisterCounter U Errors
                       (rkprom.UnRegisterSummary U ElapsedNano s))]> sets
          | None => sets
          end
      | None => sets
      end
  | None => sets
  end.

(** [clearAllMetrics()]: the loop, then [optionsMap] is a new empty map. *)
Definition clearAllMetrics (r : Registry) : Registry :=
  MkRegistry ∅ (OptionSets r)
    (fold_left (fun sets entry => unregisterAll (OptionSets r) sets entry.2)
       (map_to_list (optionsMap r)) (MetricsSets r)).

End Package.

Arguments optionsMap {MS} _.
Arguments OptionSets {MS} _.
Arguments MetricsSets {MS} _.
Arguments Ctx {MS} _.
Arguments Clock {MS} _.
Arguments Reg {MS} _.
Arguments Observed {MS} _.

End rkginmetrics.

(* ================================================================== *)
(** * Package rkgintrace: the option set of the tracing interceptor *)
(* ================================================================== *)

Module rkgintrace.

(** [CreateNoopExporter()] *)
Definition CreateNoopExporter : sdktrace.SpanExporter := sdktrace.NoopExporter.

(** [optionSet]; every field but the two names is a pointer or an
    interface and starts as nil. *)
Record optionSet := MkOptionSet {
  EntryName : string;
  EntryType : string;
  Exporter : option sdktrace.SpanExporter;
  Processor : option sdktrace.SpanProcessor;
  Provider : option sdktrace.TracerProvider;
  Propagator : option propagation.TextMapPropagator;
  Tracer : option oteltrace.Tracer
}.

(** An [Option] is one of the five closures the package builds. *)
Inductive Option :=
| WithExporter (exporter : option sdktrace.SpanExporter)
| WithSpanProcessor (processor : option sdktrace.SpanProcessor)
| WithTracerProvider (provider : option sdktrace.TracerProvider)
| WithPropagator (propagator : option propagation.TextMapPropagator)
| WithEntryNameAndType (entryName entryType : string).

(** The closure applied to the option set. *)
Definition applyOption (o : Option) (opt : optionSet) : optionSet :=
  match o with
  | WithExporter exporter =>
      match exporter with
      | Some _ =>
          MkOptionSet (EntryName opt) (EntryType opt) exporter (Processor opt)
            (Provider opt) (Propagator opt) (Tracer opt)
      | None => opt
      end
  | WithSpanProcessor processor =>
      match processor with
      | Some _ =>
          MkOptionSet (EntryName opt) (EntryType opt) (Exporter opt) processor
            (Provider opt) (Propagator opt) (Tracer opt)
      | None => opt
      end
  | WithTracerProvider provider =>
      match provider with
      | Some _ =>
          MkOptionSet (EntryName opt) (EntryType opt) (Exporter opt) (Processor opt)
            provider (Propagator opt) (Tracer opt)
      | None => opt
      end
  | WithPropagator propagator =>
      match propagator with
      | Some _ =>
          MkOptionSet (EntryName opt) (EntryType opt) (Exporter opt) (Processor opt)
            (Provider opt) propagator (Tracer opt)
      | None => opt
      end
  | WithEntryNameAndType entryName entryType =>
      MkOptionSet entryName entryType (Exporter opt) (Processor opt)
        (Provider opt) (Propagator opt) (Tracer opt)
  end.

(** [for i := range opts { opts[i](set) }] *)
Definition applyOptions (opts : list Option) (set : optionSet) : optionSet :=
  fold_left (fun s o => applyOption o s) opts set.

(** The package state: [optionsMap] holds pointers into the heap of
    option sets. *)
Record Registry := MkRegistry {
  optionsMap : gmap string nat;
  OptionSets : list optionSet
}.

Section Package.
Variable K : rkgininter.Consts.
Variable App : rkentry.AppInfoEntry.
(** [contrib.SemVersion()] *)
Variable SemVersion : string.

(** The option set after the options. *)
Definition configured (opts : list Option) : optionSet :=
  applyOptions opts
    (MkOptionSet (rkgininter.RpcEntryNameValue K) (rkgininter.RpcEntryTypeValue K)
       None None None None None).

(** The resource the default provider is made with. *)
Definition resourceOf (set : optionSet) : list (string * string) :=
  [ ("service.name", rkentry.AppName App);
    ("service.version", rkentry.Version App);
    ("service.entryName", EntryName set);
    ("service.entryType", EntryType set) ].

(** The fields of the option set [newOptionSet] fills in, in its order. *)
Definition complete (set : optionSet) : optionSet :=
  let exporter :=
    match Exporter set with
    | Some e => e
    | None => CreateNoopExporter
    end in
  let processor :=
    match Processor set with
    | Some p => p
    | None => sdktrace.BatchSpanProcessor exporter
    end in
  let provider :=
    match Provider set with
    | Some p => p
    | None =>
        sdktrace.NewTracerProvider
          [ sdktrace.WithSampler sdktrace.AlwaysSample;
            sdktrace.WithSpanProcessor processor;
            sdktrace.WithResource (resourceOf set) ]
    end in
  let tracer := oteltrace.SdkTracer provider (EntryName set) SemVersion in
  let propagator :=
    match Propagator set with
    | Some p => p
    | None =>
        propagation.NewCompositeTextMapPropagator
          [propagation.TraceContext; propagation.Baggage]
    end in
  MkOptionSet (EntryName set) (EntryType set) (Some exporter) (Some processor)
    (Some provider) (Some propagator) (Some tracer).

(** [newOptionSet(opts...)]: the pointer it returns and the package
    state. *)
Definition newOptionSet (opts : list Option) (r : Registry) : nat * Registry :=
  let set := complete (configured opts) in
  let addr := length (OptionSets r) in
  let heap := OptionSets r ++ [set] in
  match optionsMap r !! EntryName set with
  | Some _ => (addr, MkRegistry (optionsMap r) heap)
  | None => (addr, MkRegistry (<[EntryName set := addr]> (optionsMap r)) heap)
  end.

End Package.

(** The endpoint [CreateJaegerExporter] hands to the collector options:
    the default when the argument is empty, the scheme [http://] in front
    unless it is there, and the path of the collector API behind. *)
Definition collectorEndpoint (endpoint : string) : string :=
  let endpoint :=
    if Nat.ltb (String.length endpoint) 1 then "http://localhost:14268" else endpoint in
  let endpoint :=
    if negb (Go.HasPrefix endpoint "http://") then "http://" +:+ endpoint else endpoint in
  endpoint +:+ "/api/traces".

(** [CreateJaegerExporter(endpoint, username, password)];
    [NewRawExporter] is [jaeger.NewRawExporter] on the collector endpoint
    options, and [None] is the error on which the process is shut down. *)
Definition CreateJaegerExporter
    (NewRawExporter : string -> string -> string -> option sdktrace.SpanExporter)
    (endpoint username password : string) : option sdktrace.SpanExporter :=
  NewRawExporter (collectorEndpoint endpoint) username password.




End rkgintrace.

(* ================================================================== *)
(** * Package rkgin: the swagger entry *)
(* ================================================================== *)

Module rkgin.

Definition SwEntryType : string := "GinSwEntry".
Definition SwEntryNameDefault : string := "GinSwDefault".
Definition SwEntryDescription : string :=
  "Internal RK entry which implements swagger with Gin framework.".

(** [SwEntry]; the two logger entries are pointers to objects of
    [rkentry], given by their addresses. *)
Record SwEntry := MkSwEntry {
  EntryName : string;
  EntryType : string;
  EntryDescription : string;
  EventLoggerEntry : option nat;
  ZapLoggerEntry : option nat;
  JsonPath : string;
  Path : string;
  Headers : gmap string string;
  Port : N;
  EnableCommonService : bool
}.

(** A [SwOption] is one of the eight closures the package builds. *)
Inductive SwOption :=
| WithPortSw (port : N)
| WithNameSw (name : string)
| WithPathSw (path : string)
| WithJsonPathSw (path : string)
| WithHeadersSw (headers : gmap string string)
| WithZapLoggerEntrySw (zapLoggerEntry : option nat)
| WithEventLoggerEntrySw (eventLoggerEntry : option nat)
| WithEnableCommonServiceSw (enable : bool).

(** [entry.EntryName = name] and [entry.Path = path] *)
Definition setEntryName (entry : SwEntry) (name : string) : SwEntry :=
  MkSwEntry name (EntryType entry) (EntryDescription entry) (EventLoggerEntry entry)
    (ZapLoggerEntry entry) (JsonPath entry) (Path entry) (Headers entry) (Port entry)
    (EnableCommonService entry).

Definition setPath (entry : SwEntry) (path : string) : SwEntry :=
  MkSwEntry (EntryName entry) (EntryType entry) (EntryDescription entry)
    (EventLoggerEntry entry) (ZapLoggerEntry entry) (JsonPath entry) path (Headers entry)
    (Port entry) (EnableCommonService entry).

(** The closure applied to the entry. *)
Definition applySwOption (o : SwOption) (entry : SwEntry) : SwEntry :=
  match o with
  | WithPortSw port =>
      MkSwEntry (EntryName entry) (EntryType entry) (EntryDescription entry)
        (EventLoggerEntry entry) (ZapLoggerEntry entry) (JsonPath entry) (Path entry)
        (Headers entry) port (EnableCommonService entry)
  | WithNameSw name => setEntryName entry name
  | WithPathSw path =>
      let path := if Nat.ltb (String.length path) 1 then "sw" else path in
      setPath entry path
  | WithJsonPathSw path =>
      MkSwEntry (EntryName entry) (EntryType entry) (EntryDescription entry)
        (EventLoggerEntry entry) (ZapLoggerEntry entry) path (Path entry)
        (Headers entry) (Port entry) (EnableCommonService entry)
  | WithHeadersSw headers =>
      MkSwEntry (EntryName entry) (EntryType entry) (EntryDescription entry)
        (EventLoggerEntry entry) (ZapLoggerEntry entry) (JsonPath entry) (Path entry)
        headers (Port entry) (EnableCommonService entry)
  | WithZapLoggerEntrySw zapLoggerEntry =>
      MkSwEntry (EntryName entry) (EntryType entry) (EntryDescription entry)
        (EventLoggerEntry entry) zapLoggerEntry (JsonPath entry) (Path entry)
        (Headers entry) (Port entry) (EnableCommonService entry)
  | WithEventLoggerEntrySw eventLoggerEntry =>
      MkSwEntry (EntryName entry) (EntryType entry) (EntryDescription entry)
        eventLoggerEntry (ZapLoggerEntry entry) (JsonPath entry) (Path entry)
        (Headers entry) (Port entry) (EnableCommonService entry)
  | WithEnableCommonServiceSw enable =>
      MkSwEntry (EntryName entry) (EntryType entry) (EntryDescription entry)
        (EventLoggerEntry entry) (ZapLoggerEntry entry) (JsonPath entry) (Path entry)
        (Headers entry) (Port entry) enable
  end.

(** [NewSwEntry(opts...)] up to the call of [entry.initSwaggerConfig()]:
    that call reads the swagger files into package variables and assigns
    nothing to the entry, so this is the entry [NewSwEntry] returns when it
    returns.  The two arguments are the default logger entries of
    [rkentry.GlobalAppCtx]. *)
Definition NewSwEntry (zapLoggerEntryDefault eventLoggerEntryDefault : option nat)
    (opts : list SwOption) : SwEntry :=
  let entry :=
    fold_left (fun entry o => applySwOption o entry) opts
      (MkSwEntry SwEntryNameDefault SwEntryType SwEntryDescription
         eventLoggerEntryDefault zapLoggerEntryDefault "" "sw" ∅ 0%N false) in
  let entry :=
    if negb (Go.HasPrefix (Path entry) "/")
    then setPath entry ("/" +:+ Path entry) else entry in
  let entry :=
    if negb (Go.HasSuffix (Path entry) "/")
    then setPath entry (Path entry +:+ "/") else entry in
  if Nat.ltb (String.length (EntryName entry)) 1
  then setEntryName entry ("ginSwEntry-" +:+ Go.FormatUint (Port entry))
  else entry.

(** What [ConfigFileHandler] answers with: [http.ServeContent] of a name
    and a content, [http.Error] with status 500, or [http.NotFound]. *)
Inductive answer :=
| ServeContent (name content : string)
| InternalServerError
| NotFound.

(** [ConfigFileHandler()] on a request of path [r.URL.Path]: the calls of
    [w.Header().Set], in order (the headers of the entry in the order of
    [map_to_list], Go fixes none), and the answer of the [switch].
    [swaggerJsonFiles] and [swConfigFileContents] are the package
    variables, [index] is the file [pkger.Open] finds for the index page,
    [None] when it fails. *)
Definition ConfigFileHandler (entry : SwEntry)
    (swaggerJsonFiles : gmap string string) (swConfigFileContents : string)
    (index : option string) (path : string) : list (string * string) * answer :=
  let p := Go.TrimSuffix path "/" in
  let headers := ("cache-control", "no-cache") :: map_to_list (Headers entry) in
  (headers,
   if String.eqb p "/sw" then
     match index with
     | None => InternalServerError
     | Some file => ServeContent "index.html" file
     end
   else if String.eqb p "/sw/swagger-config.json" then
     ServeContent "swagger-config.json" swConfigFileContents
   else
     let p := Go.TrimPrefix p "/sw/" in
     match swaggerJsonFiles !! p with
     | Some value => ServeContent p value
     | None => NotFound
     end).

End rkgin.

(* ================================================================== *)
(** * Notions the properties are stated with *)
(* ================================================================== *)

Module Props.

(** A label value that could not be resolved is the sentinel. *)
Definition orUnknown (v : option string) : string :=
  match v with
  | Some s => s
  | None => rkginmetrics.unknown
  end.

(** The request of a context, the URL of its request and its writer, each
    nil when something on the way is nil. *)
Definition requestOf (ctx : option gin.Context) : option http.Request :=
  match ctx with
  | Some c => gin.Request c
  | None => None
  end.

Definition urlOf (ctx : option gin.Context) : option url.URL :=
  match requestOf ctx with
  | Some req => http.URL req
  | None => None
  end.

Definition writerOf (ctx : option gin.Context) : option gin.ResponseWriter :=
  match ctx with
  | Some c => gin.Writer c
  | None => None
  end.

(** The instrument an observation is about. *)
Definition instrumentOf (o : rkprom.Observation) : rkprom.Instrument :=
  match o with
  | rkprom.Observe i _ => i
  | rkprom.Inc i => i
  end.

(** What an accessor result contributes to the observations. *)
Definition told (tell : rkprom.Instrument -> rkprom.Observation)
    (m : option rkprom.Instrument) : list rkprom.Observation :=
  match m with
  | Some i => [tell i]
  | None => []
  end.

(** A key is missing from a context: the context is nil or stores nothing
    under the key. *)
Definition missing (key : string) (ctx : option gin.Context) : Prop :=
  match ctx with
  | None => True
  | Some c => gin.Get c key = None
  end.

(** A response header is missing: the context or its writer is nil, or the
    header is not set. *)
Definition missingHeader (key : string) (ctx : option gin.Context) : Prop :=
  match writerOf ctx with
  | None => True
  | Some w => gin.HeaderMap w !! key = None
  end.

(** The getters of the request context. *)
Inductive getter :=
| OfEvent
| OfLogger
| OfSpan
| OfTracer
| OfTracerProvider
| OfPropagator
| OfEntryName
| OfRequestId
| OfTraceId.

(** What a getter reads is not there: the context is nil, or nothing is
    stored under the key of the getter, or the header it reads is not
    set. *)
Definition absent (K : rkgininter.Consts) (g : getter) (ctx : option gin.Context) : Prop :=
  match g with
  | OfEvent => missing (rkgininter.RpcEventKey K) ctx
  | OfLogger => missing (rkgininter.RpcLoggerKey K) ctx
  | OfSpan => missing (rkgininter.RpcSpanKey K) ctx
  | OfTracer => missing (rkgininter.RpcTracerKey K) ctx
  | OfTracerProvider => missing (rkgininter.RpcTracerProviderKey K) ctx
  | OfPropagator => missing (rkgininter.RpcPropagatorKey K) ctx
  | OfEntryName => missing (rkgininter.RpcEntryNameKey K) ctx
  | OfRequestId => missingHeader rkginctx.RequestIdKey ctx
  | OfTraceId => missingHeader rkginctx.TraceIdKey ctx
  end.

(** An interface value is not nil. *)
Definition nonNil {A} (v : option A) : Prop := v <> None.

(** What each getter returns when what it reads is not there. *)
Definition defaulted (K : rkgininter.Consts) (g : getter) (ctx : option gin.Context) : Prop :=
  match g with
  | OfEvent => rkginctx.GetEvent K ctx = rkginctx.noopEvent
  | OfLogger => rkginctx.GetLogger K ctx = rkginctx.NoopLogger
  | OfSpan => rkginctx.GetTraceSpan K ctx = Some oteltrace.NoopSpan
  | OfTracer => rkginctx.GetTracer K ctx = Some oteltrace.NoopTracer
  | OfTracerProvider => rkginctx.GetTracerProvider K ctx = Some rkginctx.noopTracerProvider
  | OfPropagator => rkginctx.GetTracerPropagator K ctx = None
  | OfEntryName => rkginctx.GetEntryName K ctx = ""
  | OfRequestId => rkginctx.GetRequestId ctx = ""
  | OfTraceId => rkginctx.GetTraceId ctx = ""
  end.

(** An option of the tracing package that supplies an exporter, a
    processor, a provider or a propagator. *)
Definition suppliesResource (o : rkgintrace.Option) : bool :=
  match o with
  | rkgintrace.WithExporter (Some _) => true
  | rkgintrace.WithSpanProcessor (Some _) => true
  | rkgintrace.WithTracerProvider (Some _) => true
  | rkgintrace.WithPropagator (Some _) => true
  | _ => false
  end.

(** The entry name a construction of the metrics interceptor registers
    under. *)
Definition metricsEntryName (B : rkginbasic.Vars) (opts : list rkginmetrics.Option) : string :=
  fst (rkginmetrics.resolved B (rkginmetrics.configured B opts)).

(** The option set a construction of the metrics interceptor builds, with
    its metrics set at [ms]. *)
Definition metricsBuilt (B : rkginbasic.Vars) (opts : list rkginmetrics.Option)
    (ms : nat) : rkginmetrics.optionSet :=
  rkginmetrics.MkOptionSet (metricsEntryName B opts)
    (rkginmetrics.EntryType (rkginmetrics.configured B opts))
    (Some (snd (rkginmetrics.resolved B (rkginmetrics.configured B opts))))
    (Some ms).

(** The second of two constructions of the tracing option set returns the
    pointer the first returned. *)
Definition secondReturnsFirst (K : rkgininter.Consts) (App : rkentry.AppInfoEntry)
    (SemVersion : string) (opts1 opts2 : list rkgintrace.Option)
    (r0 : rkgintrace.Registry) : Prop :=
  let '(first, r1) := rkgintrace.newOptionSet K App SemVersion opts1 r0 in
  let '(second, _) := rkgintrace.newOptionSet K App SemVersion opts2 r1 in
  second = first.

(** The entry name a construction of the tracing option set registers
    under. *)
Definition traceEntryName (K : rkgininter.Consts) (opts : list rkgintrace.Option) : string :=
  rkgintrace.EntryName (rkgintrace.configured K opts).

(** Pointers of the registries lead somewhere, as Go has it. *)
Definition metricsWf {MS} (r : rkginmetrics.Registry MS) : Prop :=
  (forall name addr, rkginmetrics.optionsMap r !! name = Some addr ->
     addr < length (rkginmetrics.OptionSets r)) /\
  (forall addr set ms, rkginmetrics.OptionSets r !! addr = Some set ->
     rkginmetrics.MetricsSet set = Some ms -> ms < length (rkginmetrics.MetricsSets r)).

Definition traceWf (r : rkgintrace.Registry) : Prop :=
  forall name addr, rkgintrace.optionsMap r !! name = Some addr ->
    addr < length (rkgintrace.OptionSets r).

(** Constructions of the metrics interceptor one after the other. *)
Definition constructAll {MS} (B : rkginbasic.Vars) (App : rkentry.AppInfoEntry)
    (P : rkprom.Lib MS) (optss : list (list rkginmetrics.Option))
    (r : rkginmetrics.Registry MS) : rkginmetrics.Registry MS :=
  fold_left (fun r opts => snd (rkginmetrics.construct B App MS P opts r)) optss r.

(** The registry of the metrics interceptor as its constructions leave it:
    an entry leads to an option set of that entry name, every option set
    has a metrics set of its own, and that metrics set exists. *)
Definition metricsInv {MS} (r : rkginmetrics.Registry MS) : Prop :=
  (forall name addr, rkginmetrics.optionsMap r !! name = Some addr ->
     exists set, rkginmetrics.OptionSets r !! addr = Some set /\
                 rkginmetrics.EntryName set = name) /\
  (forall addr set, rkginmetrics.OptionSets r !! addr = Some set ->
     exists ms, rkginmetrics.MetricsSet set = Some ms /\
                ms < length (rkginmetrics.MetricsSets r)) /\
  (forall addr addr' set set',
     rkginmetrics.OptionSets r !! addr = Some set ->
     rkginmetrics.OptionSets r !! addr' = Some set' ->
     rkginmetrics.MetricsSet set = rkginmetrics.MetricsSet set' -> addr = addr').

(** The registry of the tracing option sets as its constructions leave
    it: an entry leads to an option set of that entry name, and no option
    set has a nil field. *)
Definition traceInv (r : rkgintrace.Registry) : Prop :=
  (forall name addr, rkgintrace.optionsMap r !! name = Some addr ->
     exists set, rkgintrace.OptionSets r !! addr = Some set /\
                 rkgintrace.EntryName set = name) /\
  (forall addr set, rkgintrace.OptionSets r !! addr = Some set ->
     is_Some (rkgintrace.Exporter set) /\ is_Some (rkgintrace.Processor set) /\
     is_Some (rkgintrace.Provider set) /\ is_Some (rkgintrace.Propagator set) /\
     is_Some (rkgintrace.Tracer set)).

(** What an option of the metrics package supplies: a name or a type that
    is not empty, a registerer that is not nil. *)
Definition metricsName (o : rkginmetrics.Option) : option string :=
  match o with
  | rkginmetrics.WithEntryNameAndType entryName _ =>
      if decide (entryName = "") then None else Some entryName
  | _ => None
  end.

Definition metricsType (o : rkginmetrics.Option) : option string :=
  match o with
  | rkginmetrics.WithEntryNameAndType _ entryType =>
      if decide (entryType = "") then None else Some entryType
  | _ => None
  end.

Definition metricsRegisterer (o : rkginmetrics.Option) : option prometheus.Registerer :=
  match o with
  | rkginmetrics.WithRegisterer registerer => registerer
  | _ => None
  end.

(** What an option of the tracing package supplies. *)
Definition traceNames (o : rkgintrace.Option) : option (string * string) :=
  match o with
  | rkgintrace.WithEntryNameAndType entryName entryType => Some (entryName, entryType)
  | _ => None
  end.

Definition traceExporter (o : rkgintrace.Option) : option sdktrace.SpanExporter :=
  match o with
  | rkgintrace.WithExporter exporter => exporter
  | _ => None
  end.

Definition traceProcessor (o : rkgintrace.Option) : option sdktrace.SpanProcessor :=
  match o with
  | rkgintrace.WithSpanProcessor processor => processor
  | _ => None
  end.

Definition traceProvider (o : rkgintrace.Option) : option sdktrace.TracerProvider :=
  match o with
  | rkgintrace.WithTracerProvider provider => provider
  | _ => None
  end.

Definition tracePropagator (o : rkgintrace.Option) : option propagation.TextMapPropagator :=
  match o with
  | rkgintrace.WithPropagator propagator => propagator
  | _ => None
  end.

(** Constructions of the tracing option set one after the other. *)
Definition newOptionSets (K : rkgininter.Consts) (App : rkentry.AppInfoEntry)
    (SemVersion : string) (optss : list (list rkgintrace.Option))
    (r : rkgintrace.Registry) : rkgintrace.Registry :=
  fold_left (fun r opts => snd (rkgintrace.newOptionSet K App SemVersion opts r)) optss r.

(** What an option of the swagger entry supplies. *)
Definition swName (o : rkgin.SwOption) : option string :=
  match o with
  | rkgin.WithNameSw name => Some name
  | _ => None
  end.

Definition swPort (o : rkgin.SwOption) : option N :=
  match o with
  | rkgin.WithPortSw port => Some port
  | _ => None
  end.

Definition swPath (o : rkgin.SwOption) : option string :=
  match o with
  | rkgin.WithPathSw path => Some (if decide (path = "") then "sw" else path)
  | _ => None
  end.

End Props.

(** Concrete values, as the READMEs of the examples show them. *)
Module Demo.

Definition B : rkginbasic.Vars :=
  rkginbasic.MkVars "rkEntryName" "gin" "gin" "*" "*" "*" "*" "lark.local".

Definition App : rkentry.AppInfoEntry := rkentry.MkAppInfoEntry "rk" "v0.0.0".

Definition K : rkgininter.Consts :=
  rkgininter.MkConsts "rkEntryName" "gin" "gin" "rkEvent" "rkLogger" "rkSpan"
    "rkTracer" "rkTracerProvider" "rkPropagator".

Definition E : rkerror.Lib :=
  rkerror.MkLib
    (fun e => rkerror.MkErrorResp
                (rkerror.MkError 500 "Internal Server Error" (Go.ErrorText e) []))
    (fun msg => rkerror.MkErrorResp
                  (rkerror.MkError 500 "Internal Server Error" msg [])).

Definition writer : gin.ResponseWriter := gin.MkResponseWriter 200 ∅ [].

Definition request (uri : string) : http.Request :=
  http.MkRequest "GET" (Some (url.MkURL uri)) uri.

(** A context as [gin.CreateTestContext] makes it, with a request. *)
Definition context (uri : string) : gin.Context :=
  gin.MkContext (Some (request uri)) (Some writer) ∅ [].

Definition emptyMetrics : rkginmetrics.Registry rkprom.TableSet :=
  rkginmetrics.MkRegistry rkprom.TableSet ∅ [] [].

Definition emptyTrace : rkgintrace.Registry := rkgintrace.MkRegistry ∅ [].

(** The metrics registry after one construction for the entry [svcA]. *)
Definition registered : rkginmetrics.Registry rkprom.TableSet :=
  snd (rkginmetrics.construct B App _ rkprom.tables
         [rkginmetrics.WithEntryNameAndType "svcA" "gin"] emptyMetrics).

(** A request of the entry [svcA]. *)
Definition metricsWorld (uri : string) : rkginmetrics.World rkprom.TableSet :=
  rkginmetrics.MkWorld _
    (gin.Set_ (context uri) (rkginbasic.RkEntryNameKey B) (gin.VString "svcA"))
    1000 registered [].

(** A next stage that takes 250 nanoseconds. *)
Definition tick : rkginmetrics.HandlerFunc rkprom.TableSet :=
  runtime.modify (fun w =>
    rkginmetrics.MkWorld _ (rkginmetrics.Ctx w) (rkginmetrics.Clock w + 250)
      (rkginmetrics.Reg w) (rkginmetrics.Observed w)).

(** A request with a live event and a logger in its context. *)
Definition panicWorld : rkginpanic.World :=
  rkginpanic.MkWorld
    (gin.Set_
       (gin.Set_ (context "/v1/hello") (rkgininter.RpcEventKey K)
          (gin.VEvent (rkquery.EventRef 0)))
       (rkgininter.RpcLoggerKey K) (gin.VLogger (zap.Core [])))
    [rkquery.MkEventData ∅ []] [].

(** The metrics registry after constructions for the entries [svcA] and
    [svcB]. *)
Definition twoEntries : rkginmetrics.Registry rkprom.TableSet :=
  Props.constructAll B App rkprom.tables
    [ [rkginmetrics.WithEntryNameAndType "svcA" "gin"];
      [rkginmetrics.WithEntryNameAndType "svcB" "gin"] ] emptyMetrics.

(** A request of the entry [svcA] with both entries registered. *)
Definition twoEntriesWorld (uri : string) : rkginmetrics.World rkprom.TableSet :=
  rkginmetrics.MkWorld _
    (gin.Set_ (context uri) (rkginbasic.RkEntryNameKey B) (gin.VString "svcA"))
    1000 twoEntries [].

End Demo.

(* ================================================================== *)
(** * Properties of the metrics labels *)
(* ================================================================== *)

Lemma DefaultLabelKeys_length : length rkginmetrics.DefaultLabelKeys = 13.
Proof. reflexivity. Qed.

Lemma DefaultLabelKeys_NoDup : NoDup rkginmetrics.DefaultLabelKeys.
Proof.
  unfold rkginmetrics.DefaultLabelKeys. apply NoDup_ListNoDup.
  repeat constructor; simpl; intuition congruence.
Qed.

(** The instruments the accessors hand out carry the values of
    [getValues]. *)
Lemma accessor_values B App MS (P : rkprom.Lib MS)
    (ctx : option gin.Context) (r : rkginmetrics.Registry MS) (m : rkprom.Instrument) :
  rkginmetrics.GetServerDurationMetrics B App MS P ctx r = Some m \/
  rkginmetrics.GetServerErrorMetrics B App MS P ctx r = Some m \/
  rkginmetrics.GetServerResCodeMetrics B App MS P ctx r = Some m ->
  rkprom.LabelValues m = rkginmetrics.getValues B App MS ctx r /\
  rkginmetrics.GetServerMetricsSet B MS ctx r = Some (rkprom.OfSet m).
Proof.
  unfold rkginmetrics.GetServerDurationMetrics, rkginmetrics.GetServerErrorMetrics,
    rkginmetrics.GetServerResCodeMetrics, rkginmetrics.GetSummaryWithValues,
    rkginmetrics.GetCounterWithValues.
  intros H.
  destruct (rkginmetrics.GetServerMetricsSet B MS ctx r) as [ms|]; simpl in H.
  - destruct (rkginmetrics.MetricsSets r !! ms) as [s|].
    + destruct H as [H|[H|H]]; destruct ctx; simpl in H; try discriminate;
        match type of H with
        | (if ?b then _ else _) = _ => destruct b; [|discriminate]
        end; inversion H; subst; simpl; auto.
    + destruct H as [H|[H|H]]; destruct ctx; discriminate.
  - destruct H as [H|[H|H]]; destruct ctx; discriminate.
Qed.

(** C4: every label-value list [getValues] builds has exactly 13 elements,
    one per key of [DefaultLabelKeys] and in the order of the keys; the
    entry name and type, the method, the path and the response code are
    the sentinel ["unknown"] whenever the context, the request, the URL,
    the writer or the option set they are read from is nil; and the
    latency, error and response-code instruments the accessors hand out
    are bound to that list. *)
Theorem getValues_thirteen_labels B App MS (P : rkprom.Lib MS)
    (ctx : option gin.Context) (r : rkginmetrics.Registry MS) :
  let values := rkginmetrics.getValues B App MS ctx r in
  let set := rkginmetrics.load MS r (rkginmetrics.GetOptionSet B MS ctx r) in
  length values = 13 /\
  length values = length rkginmetrics.DefaultLabelKeys /\
  zip rkginmetrics.DefaultLabelKeys values =
    [ ("entryName", Props.orUnknown (rkginmetrics.EntryName <$> set));
      ("entryType", Props.orUnknown (rkginmetrics.EntryType <$> set));
      ("realm", rkginbasic.Realm B);
      ("region", rkginbasic.Region B);
      ("az", rkginbasic.AZ B);
      ("domain", rkginbasic.Domain B);
      ("instance", rkginbasic.LocalHostname B);
      ("appVersion", rkentry.Version App);
      ("appName", rkentry.AppName App);
      ("restMethod", Props.orUnknown (http.Method <$> Props.requestOf ctx));
      ("restPath", Props.orUnknown (url.Path <$> Props.urlOf ctx));
      ("type", "ginServer");
      ("resCode",
       Props.orUnknown
         (match Props.requestOf ctx with
          | Some _ => (fun w => Go.Itoa (gin.Status w)) <$> Props.writerOf ctx
          | None => None
          end)) ] /\
  from_option (fun m => rkprom.LabelValues m = values) True
    (rkginmetrics.GetServerDurationMetrics B App MS P ctx r) /\
  from_option (fun m => rkprom.LabelValues m = values) True
    (rkginmetrics.GetServerErrorMetrics B App MS P ctx r) /\
  from_option (fun m => rkprom.LabelValues m = values) True
    (rkginmetrics.GetServerResCodeMetrics B App MS P ctx r).
Proof.
  intros values set. subst values set.
  assert (Hlen : length (rkginmetrics.getValues B App MS ctx r) = 13).
  { unfold rkginmetrics.getValues.
    destruct (rkginmetrics.load MS r (rkginmetrics.GetOptionSet B MS ctx r)) as [s|];
      destruct ctx as [c|]; try destruct (gin.Request c) as [req|]; reflexivity. }
  split; [exact Hlen|]. split; [exact Hlen|]. split.
  - unfold rkginmetrics.getValues, Props.urlOf, Props.requestOf, Props.writerOf.
    destruct (rkginmetrics.load MS r (rkginmetrics.GetOptionSet B MS ctx r)) as [s|];
      destruct ctx as [c|]; simpl;
      try destruct (gin.Request c) as [req|]; simpl;
      try destruct (http.URL req) as [u|]; simpl;
      try destruct (gin.Writer c) as [w|]; simpl;
      reflexivity.
  - repeat split.
    + destruct (rkginmetrics.GetServerDurationMetrics B App MS P ctx r) as [m|] eqn:H;
        simpl; [|exact I].
      eapply accessor_values. left. exact H.
    + destruct (rkginmetrics.GetServerErrorMetrics B App MS P ctx r) as [m|] eqn:H;
        simpl; [|exact I].
      eapply accessor_values. right. left. exact H.
    + destruct (rkginmetrics.GetServerResCodeMetrics B App MS P ctx r) as [m|] eqn:H;
        simpl; [|exact I].
      eapply accessor_values. right. right. exact H.
Qed.

Example getValues_nil_context :
  rkginmetrics.getValues Demo.B Demo.App _ None Demo.emptyMetrics =
    [ "unknown"; "unknown"; "*"; "*"; "*"; "*"; "lark.local"; "v0.0.0"; "rk";
      "unknown"; "unknown"; "ginServer"; "unknown" ].
Proof. reflexivity. Qed.

Example getValues_no_option_set :
  rkginmetrics.getValues Demo.B Demo.App _
    (Some (Demo.context "/v1/hello")) Demo.emptyMetrics =
    [ "unknown"; "unknown"; "*"; "*"; "*"; "*"; "lark.local"; "v0.0.0"; "rk";
      "GET"; "/v1/hello"; "ginServer"; "200" ].
Proof. reflexivity. Qed.

(* ================================================================== *)
(** * Properties of the metrics handler *)
(* ================================================================== *)

(** A conditional observation always returns, with what the accessor gave
    added to the observations. *)
Lemma whenAvailable_run MS
    (accessor : option gin.Context -> rkginmetrics.Registry MS -> option rkprom.Instrument)
    (tell : rkprom.Instrument -> rkprom.Observation) (w : rkginmetrics.World MS) :
  rkginmetrics.whenAvailable MS accessor tell w =
    runtime.Returned tt
      (rkginmetrics.MkWorld MS (rkginmetrics.Ctx w) (rkginmetrics.Clock w)
         (rkginmetrics.Reg w)
         (rkginmetrics.Observed w ++
          Props.told tell (accessor (Some (rkginmetrics.Ctx w)) (rkginmetrics.Reg w)))).
Proof.
  unfold rkginmetrics.whenAvailable.
  destruct (accessor (Some (rkginmetrics.Ctx w)) (rkginmetrics.Reg w)); simpl.
  - reflexivity.
  - rewrite app_nil_r. destruct w; reflexivity.
Qed.

(** What the handler does, case by case on how the next stage ends. *)
Lemma handler_run B App MS (P : rkprom.Lib MS) (set : nat)
    (next : rkginmetrics.HandlerFunc MS) (w : rkginmetrics.World MS) :
  rkginmetrics.handler B App MS P set next w =
  match next w with
  | runtime.Panicked v w' => runtime.Panicked v w'
  | runtime.Returned _ w' =>
      match gin.Request (rkginmetrics.Ctx w') with
      | None => runtime.Panicked (runtime.ErrorValue Go.nilDereference) w'
      | Some req =>
          if rkginmetrics.ignored (http.RequestURI req)
          then runtime.Returned tt w'
          else
            let ctx := Some (rkginmetrics.Ctx w') in
            let r := rkginmetrics.Reg w' in
            runtime.Returned tt
              (rkginmetrics.MkWorld MS (rkginmetrics.Ctx w') (rkginmetrics.Clock w') r
                 (rkginmetrics.Observed w' ++
                  Props.told
                    (fun m => rkprom.Observe m (rkginmetrics.Clock w' - rkginmetrics.Clock w))
                    (rkginmetrics.GetServerDurationMetrics B App MS P ctx r) ++
                  (if Nat.ltb 0 (length (gin.Errors (rkginmetrics.Ctx w')))
                   then Props.told rkprom.Inc (rkginmetrics.GetServerErrorMetrics B App MS P ctx r)
                   else []) ++
                  Props.told rkprom.Inc (rkginmetrics.GetServerResCodeMetrics B App MS P ctx r)))
      end
  end.
Proof.
  unfold rkginmetrics.handler, runtime.bind, rkginmetrics.now, rkginmetrics.requestURI,
    rkginmetrics.ignored.
  destruct (next w) as [[] w'|v w']; [|reflexivity].
  cbn beta iota.
  destruct (gin.Request (rkginmetrics.Ctx w')) as [req|]; [|reflexivity].
  destruct (Go.HasPrefix (http.RequestURI req) "/rk/v1/assets"); [reflexivity|].
  destruct (Go.HasPrefix (http.RequestURI req) "/rk/v1/tv"); [reflexivity|].
  destruct (Go.HasPrefix (http.RequestURI req) "/sw/"); [reflexivity|].
  cbn [negb andb orb].
  rewrite !whenAvailable_run. cbn [rkginmetrics.Ctx rkginmetrics.Clock rkginmetrics.Reg
    rkginmetrics.Observed].
  destruct (Nat.ltb 0 (length (gin.Errors (rkginmetrics.Ctx w')))).
  - rewrite whenAvailable_run. cbn [rkginmetrics.Ctx rkginmetrics.Clock rkginmetrics.Reg
      rkginmetrics.Observed].
    rewrite whenAvailable_run. cbn [rkginmetrics.Ctx rkginmetrics.Clock rkginmetrics.Reg
      rkginmetrics.Observed].
    rewrite <- !app_assoc. reflexivity.
  - unfold runtime.ret. rewrite whenAvailable_run.
    cbn [rkginmetrics.Ctx rkginmetrics.Clock rkginmetrics.Reg rkginmetrics.Observed].
    rewrite <- !app_assoc. reflexivity.
Qed.

(** C5: when the request URI starts with [/rk/v1/assets], [/rk/v1/tv] or
    [/sw/], the handler leaves the world as the next stage left it: no
    latency is observed, no counter is incremented, and the metrics sets
    and the registry are unchanged. *)
Theorem handler_ignores_internal_paths B App MS (P : rkprom.Lib MS) (set : nat)
    (next : rkginmetrics.HandlerFunc MS) (w w' : rkginmetrics.World MS)
    (req : http.Request) :
  next w = runtime.Returned tt w' ->
  gin.Request (rkginmetrics.Ctx w') = Some req ->
  Go.HasPrefix (http.RequestURI req) "/rk/v1/assets" = true \/
  Go.HasPrefix (http.RequestURI req) "/rk/v1/tv" = true \/
  Go.HasPrefix (http.RequestURI req) "/sw/" = true ->
  rkginmetrics.handler B App MS P set next w = runtime.Returned tt w' /\
  rkginmetrics.Observed (runtime.worldOf (rkginmetrics.handler B App MS P set next w)) =
    rkginmetrics.Observed w' /\
  rkginmetrics.Reg (runtime.worldOf (rkginmetrics.handler B App MS P set next w)) =
    rkginmetrics.Reg w'.
Proof.
  intros Hnext Hreq Hpre.
  assert (Hrun : rkginmetrics.handler B App MS P set next w = runtime.Returned tt w').
  { rewrite handler_run, Hnext, Hreq.
    replace (rkginmetrics.ignored (http.RequestURI req)) with true; [reflexivity|].
    unfold rkginmetrics.ignored.
    destruct Hpre as [H|[H|H]]; rewrite H; simpl; rewrite ?orb_true_r; reflexivity. }
  rewrite Hrun. auto.
Qed.

(** C7: on a path that is not ignored, once the next stage has returned,
    the handler adds to the observations, in this order: the elapsed time
    on the latency instrument, one increment of the error counter when the
    context has recorded errors and none otherwise, and one increment of
    the response-code counter; an instrument whose accessor returns nil
    contributes nothing, and the handler returns all the same. *)
Theorem handler_observes B App MS (P : rkprom.Lib MS) (set : nat)
    (next : rkginmetrics.HandlerFunc MS) (w w' : rkginmetrics.World MS)
    (req : http.Request) :
  next w = runtime.Returned tt w' ->
  gin.Request (rkginmetrics.Ctx w') = Some req ->
  rkginmetrics.ignored (http.RequestURI req) = false ->
  let ctx := Some (rkginmetrics.Ctx w') in
  let r := rkginmetrics.Reg w' in
  let elapsed := (rkginmetrics.Clock w' - rkginmetrics.Clock w)%Z in
  rkginmetrics.handler B App MS P set next w =
    runtime.Returned tt
      (rkginmetrics.MkWorld MS (rkginmetrics.Ctx w') (rkginmetrics.Clock w') r
         (rkginmetrics.Observed w' ++
          Props.told (fun m => rkprom.Observe m elapsed)
            (rkginmetrics.GetServerDurationMetrics B App MS P ctx r) ++
          (match gin.Errors (rkginmetrics.Ctx w') with
           | [] => []
           | _ :: _ => Props.told rkprom.Inc (rkginmetrics.GetServerErrorMetrics B App MS P ctx r)
           end) ++
          Props.told rkprom.Inc (rkginmetrics.GetServerResCodeMetrics B App MS P ctx r))).
Proof.
  intros Hnext Hreq Hign ctx r elapsed.
  rewrite handler_run, Hnext, Hreq, Hign. simpl.
  destruct (gin.Errors (rkginmetrics.Ctx w')); reflexivity.
Qed.

(* ================================================================== *)
(** * Properties of the registry of the metrics interceptor *)
(* ================================================================== *)

Section MetricsRegistry.
Variable B : rkginbasic.Vars.
Variable App : rkentry.AppInfoEntry.
Variable MS : Type.
Variable P : rkprom.Lib MS.

Local Abbreviation construct := (rkginmetrics.construct B App MS P).
Local Abbreviation name := (Props.metricsEntryName B).

Lemma construct_unfold opts (r : rkginmetrics.Registry MS) :
  construct opts r =
    let ms := length (rkginmetrics.MetricsSets r) in
    let sets :=
      rkginmetrics.MetricsSets r ++
      [rkprom.NewMetricsSet P (rkentry.AppName App) (name opts)
         (snd (rkginmetrics.resolved B (rkginmetrics.configured B opts)))] in
    let heap := rkginmetrics.OptionSets r ++ [Props.metricsBuilt B opts ms] in
    (length (rkginmetrics.OptionSets r),
     match rkginmetrics.optionsMap r !! name opts with
     | Some _ => rkginmetrics.MkRegistry MS (rkginmetrics.optionsMap r) heap sets
     | None =>
         rkginmetrics.MkRegistry MS
           (<[name opts := length (rkginmetrics.OptionSets r)]> (rkginmetrics.optionsMap r))
           heap (rkginmetrics.initMetrics MS P ms sets)
     end).
Proof.
  unfold rkginmetrics.construct, Props.metricsBuilt, Props.metricsEntryName.
  destruct (rkginmetrics.resolved B (rkginmetrics.configured B opts)) as [n g]. simpl.
  destruct (rkginmetrics.optionsMap r !! n); reflexivity.
Qed.

(** A construction returns a pointer to the option set it has just
    allocated. *)
Lemma construct_fresh opts (r : rkginmetrics.Registry MS) :
  fst (construct opts r) = length (rkginmetrics.OptionSets r).
Proof. rewrite construct_unfold. reflexivity. Qed.

Lemma initMetrics_length ms (sets : list MS) :
  length (rkginmetrics.initMetrics MS P ms sets) = length sets.
Proof.
  unfold rkginmetrics.initMetrics. destruct (sets !! ms); [|reflexivity].
  apply length_insert.
Qed.

Lemma initMetrics_other ms ms' (sets : list MS) :
  ms <> ms' -> rkginmetrics.initMetrics MS P ms sets !! ms' = sets !! ms'.
Proof.
  intros Hne. unfold rkginmetrics.initMetrics. destruct (sets !! ms); [|reflexivity].
  apply list_lookup_insert_ne. exact Hne.
Qed.

(** When the entry name is registered, a construction changes neither the
    map nor any cell that existed: it only allocates. *)
Lemma construct_registered opts (r : rkginmetrics.Registry MS) addr :
  rkginmetrics.optionsMap r !! name opts = Some addr ->
  rkginmetrics.optionsMap (snd (construct opts r)) = rkginmetrics.optionsMap r /\
  rkginmetrics.OptionSets (snd (construct opts r)) =
    rkginmetrics.OptionSets r ++ [Props.metricsBuilt B opts (length (rkginmetrics.MetricsSets r))] /\
  rkginmetrics.MetricsSets (snd (construct opts r)) =
    rkginmetrics.MetricsSets r ++
    [rkprom.NewMetricsSet P (rkentry.AppName App) (name opts)
       (snd (rkginmetrics.resolved B (rkginmetrics.configured B opts)))].
Proof.
  intros H. rewrite construct_unfold. simpl. rewrite H. simpl. auto.
Qed.

(** When it is not, the option set just allocated is registered. *)
Lemma construct_unregistered opts (r : rkginmetrics.Registry MS) :
  rkginmetrics.optionsMap r !! name opts = None ->
  rkginmetrics.optionsMap (snd (construct opts r)) =
    <[name opts := length (rkginmetrics.OptionSets r)]> (rkginmetrics.optionsMap r) /\
  rkginmetrics.OptionSets (snd (construct opts r)) =
    rkginmetrics.OptionSets r ++ [Props.metricsBuilt B opts (length (rkginmetrics.MetricsSets r))] /\
  rkginmetrics.MetricsSets (snd (construct opts r)) =
    rkginmetrics.initMetrics MS P (length (rkginmetrics.MetricsSets r))
      (rkginmetrics.MetricsSets r ++
       [rkprom.NewMetricsSet P (rkentry.AppName App) (name opts)
          (snd (rkginmetrics.resolved B (rkginmetrics.configured B opts)))]).
Proof.
  intros H. rewrite construct_unfold. simpl. rewrite H. simpl. auto.
Qed.

(** After a construction the entry name is registered. *)
Lemma construct_registers opts (r : rkginmetrics.Registry MS) :
  is_Some (rkginmetrics.optionsMap (snd (construct opts r)) !! name opts).
Proof.
  destruct (rkginmetrics.optionsMap r !! name opts) as [addr|] eqn:H.
  - destruct (construct_registered opts r addr H) as (-> & _). rewrite H. eauto.
  - destruct (construct_unregistered opts r H) as (-> & _).
    rewrite lookup_insert_eq. eauto.
Qed.

(** Cells that exist are never moved, and keep what they hold. *)
Lemma construct_keeps_option_sets opts (r : rkginmetrics.Registry MS) addr set :
  rkginmetrics.OptionSets r !! addr = Some set ->
  rkginmetrics.OptionSets (snd (construct opts r)) !! addr = Some set.
Proof.
  intros H.
  assert (Hheap : rkginmetrics.OptionSets (snd (construct opts r)) =
    rkginmetrics.OptionSets r ++ [Props.metricsBuilt B opts (length (rkginmetrics.MetricsSets r))]).
  { destruct (rkginmetrics.optionsMap r !! name opts) as [a|] eqn:Hn.
    - apply (construct_registered opts r a Hn).
    - apply (construct_unregistered opts r Hn). }
  rewrite Hheap. apply lookup_app_l_Some. exact H.
Qed.

Lemma construct_keeps_metrics_sets opts (r : rkginmetrics.Registry MS) ms s :
  rkginmetrics.MetricsSets r !! ms = Some s ->
  rkginmetrics.MetricsSets (snd (construct opts r)) !! ms = Some s.
Proof.
  intros H.
  assert (Hlt : ms < length (rkginmetrics.MetricsSets r)) by (eapply lookup_lt_Some; eauto).
  destruct (rkginmetrics.optionsMap r !! name opts) as [a|] eqn:Hn.
  - destruct (construct_registered opts r a Hn) as (_ & _ & ->).
    apply lookup_app_l_Some. exact H.
  - destruct (construct_unregistered opts r Hn) as (_ & _ & ->).
    rewrite initMetrics_other by lia. apply lookup_app_l_Some. exact H.
Qed.

Lemma metricsWf_empty : Props.metricsWf (rkginmetrics.MkRegistry MS ∅ [] []).
Proof.
  split; simpl.
  - intros n a H. rewrite lookup_empty in H. discriminate.
  - intros a s ms H. rewrite lookup_nil in H. discriminate.
Qed.

(** Constructions keep the pointers of the registry valid. *)
Lemma construct_wf opts (r : rkginmetrics.Registry MS) :
  Props.metricsWf r -> Props.metricsWf (snd (construct opts r)).
Proof.
  intros [Hmap Hheap].
  assert (Hsets : length (rkginmetrics.MetricsSets (snd (construct opts r))) =
                  S (length (rkginmetrics.MetricsSets r))).
  { destruct (rkginmetrics.optionsMap r !! name opts) as [a|] eqn:Hn.
    - destruct (construct_registered opts r a Hn) as (_ & _ & ->).
      rewrite length_app. simpl. lia.
    - destruct (construct_unregistered opts r Hn) as (_ & _ & ->).
      rewrite initMetrics_length, length_app. simpl. lia. }
  assert (Hopts : rkginmetrics.OptionSets (snd (construct opts r)) =
    rkginmetrics.OptionSets r ++ [Props.metricsBuilt B opts (length (rkginmetrics.MetricsSets r))]).
  { destruct (rkginmetrics.optionsMap r !! name opts) as [a|] eqn:Hn.
    - apply (construct_registered opts r a Hn).
    - apply (construct_unregistered opts r Hn). }
  split.
  - intros n a H. rewrite Hopts, length_app. simpl.
    destruct (rkginmetrics.optionsMap r !! name opts) as [a'|] eqn:Hn.
    + destruct (construct_registered opts r a' Hn) as (Hm & _). rewrite Hm in H.
      apply Hmap in H. lia.
    + destruct (construct_unregistered opts r Hn) as (Hm & _). rewrite Hm in H.
      destruct (decide (name opts = n)) as [Heq|Hne].
      * subst n. rewrite lookup_insert_eq in H. inversion H. lia.
      * rewrite lookup_insert_ne in H by exact Hne. apply Hmap in H. lia.
  - intros a s ms H Hms. rewrite Hsets. rewrite Hopts in H.
    apply lookup_app_Some in H. destruct H as [H|[_ H]].
    + specialize (Hheap a s ms H Hms). lia.
    + destruct (a - length (rkginmetrics.OptionSets r)) as [|k]; simpl in H.
      * inversion H. subst s. simpl in Hms. inversion Hms. lia.
      * rewrite lookup_nil in H. discriminate.
Qed.

End MetricsRegistry.

(* ================================================================== *)
(** * Properties of the registry of the tracing option set *)
(* ================================================================== *)

Section TraceRegistry.
Variable K : rkgininter.Consts.
Variable App : rkentry.AppInfoEntry.
Variable SemVersion : string.

Local Abbreviation newOptionSet := (rkgintrace.newOptionSet K App SemVersion).
Local Abbreviation built := (fun opts => rkgintrace.complete App SemVersion (rkgintrace.configured K opts)).
Local Abbreviation name := (Props.traceEntryName K).

Lemma newOptionSet_unfold opts (r : rkgintrace.Registry) :
  newOptionSet opts r =
    (length (rkgintrace.OptionSets r),
     match rkgintrace.optionsMap r !! name opts with
     | Some _ =>
         rkgintrace.MkRegistry (rkgintrace.optionsMap r)
           (rkgintrace.OptionSets r ++ [built opts])
     | None =>
         rkgintrace.MkRegistry
           (<[name opts := length (rkgintrace.OptionSets r)]> (rkgintrace.optionsMap r))
           (rkgintrace.OptionSets r ++ [built opts])
     end).
Proof.
  unfold rkgintrace.newOptionSet, Props.traceEntryName. simpl.
  destruct (rkgintrace.optionsMap r !! rkgintrace.EntryName (rkgintrace.configured K opts));
    reflexivity.
Qed.

(** [newOptionSet] returns a pointer to the option set it has just built
    from its own arguments. *)
Lemma newOptionSet_returns_built opts (r : rkgintrace.Registry) :
  fst (newOptionSet opts r) = length (rkgintrace.OptionSets r) /\
  rkgintrace.OptionSets (snd (newOptionSet opts r)) !! fst (newOptionSet opts r) =
    Some (built opts).
Proof.
  rewrite newOptionSet_unfold. simpl. split; [reflexivity|].
  destruct (rkgintrace.optionsMap r !! name opts); simpl;
    apply list_lookup_middle; reflexivity.
Qed.

(** When the entry name is registered, the map and the cells that exist
    stay as they are. *)
Lemma newOptionSet_registered opts (r : rkgintrace.Registry) addr :
  rkgintrace.optionsMap r !! name opts = Some addr ->
  rkgintrace.optionsMap (snd (newOptionSet opts r)) = rkgintrace.optionsMap r /\
  rkgintrace.OptionSets (snd (newOptionSet opts r)) = rkgintrace.OptionSets r ++ [built opts].
Proof.
  intros H. rewrite newOptionSet_unfold. simpl. rewrite H. auto.
Qed.

Lemma newOptionSet_unregistered opts (r : rkgintrace.Registry) :
  rkgintrace.optionsMap r !! name opts = None ->
  rkgintrace.optionsMap (snd (newOptionSet opts r)) =
    <[name opts := length (rkgintrace.OptionSets r)]> (rkgintrace.optionsMap r) /\
  rkgintrace.OptionSets (snd (newOptionSet opts r)) = rkgintrace.OptionSets r ++ [built opts].
Proof.
  intros H. rewrite newOptionSet_unfold. simpl. rewrite H. auto.
Qed.

Lemma newOptionSet_registers opts (r : rkgintrace.Registry) :
  is_Some (rkgintrace.optionsMap (snd (newOptionSet opts r)) !! name opts).
Proof.
  destruct (rkgintrace.optionsMap r !! name opts) as [addr|] eqn:H.
  - destruct (newOptionSet_registered opts r addr H) as (-> & _). rewrite H. eauto.
  - destruct (newOptionSet_unregistered opts r H) as (-> & _).
    rewrite lookup_insert_eq. eauto.
Qed.

Lemma traceWf_empty : Props.traceWf (rkgintrace.MkRegistry ∅ []).
Proof. intros n a H. simpl in H. rewrite lookup_empty in H. discriminate. Qed.

Lemma newOptionSet_wf opts (r : rkgintrace.Registry) :
  Props.traceWf r -> Props.traceWf (snd (newOptionSet opts r)).
Proof.
  intros Hwf n a H.
  destruct (rkgintrace.optionsMap r !! name opts) as [a'|] eqn:Hn.
  - destruct (newOptionSet_registered opts r a' Hn) as (Hm & ->). rewrite Hm in H.
    apply Hwf in H. rewrite length_app. simpl. lia.
  - destruct (newOptionSet_unregistered opts r Hn) as (Hm & ->). rewrite Hm in H.
    rewrite length_app. simpl.
    destruct (decide (name opts = n)) as [Heq|Hne].
    + subst n. rewrite lookup_insert_eq in H. inversion H. lia.
    + rewrite lookup_insert_ne in H by exact Hne. apply Hwf in H. lia.
Qed.

(** Options that supply no exporter, processor, provider or propagator
    leave these four fields as they are. *)
Lemma applyOptions_resources opts (set : rkgintrace.optionSet) :
  Forall (fun o => Props.suppliesResource o = false) opts ->
  rkgintrace.Exporter (rkgintrace.applyOptions opts set) = rkgintrace.Exporter set /\
  rkgintrace.Processor (rkgintrace.applyOptions opts set) = rkgintrace.Processor set /\
  rkgintrace.Provider (rkgintrace.applyOptions opts set) = rkgintrace.Provider set /\
  rkgintrace.Propagator (rkgintrace.applyOptions opts set) = rkgintrace.Propagator set.
Proof.
  intros H. revert set. induction H as [|o opts Ho _ IH]; intros set.
  - simpl. auto.
  - change (rkgintrace.applyOptions (o :: opts) set)
      with (rkgintrace.applyOptions opts (rkgintrace.applyOption o set)).
    destruct (IH (rkgintrace.applyOption o set)) as (-> & -> & -> & ->).
    destruct o as [[e|]|[p|]|[p|]|[p|]|n t]; simpl in Ho; try discriminate; simpl; auto.
Qed.

End TraceRegistry.

(** C9: when no option supplies an exporter, a processor, a provider or a
    propagator, the option set [newOptionSet] returns has the no-op
    exporter, a batch span processor on that exporter, a provider made
    with the always-sample sampler, that processor and a resource of
    exactly the attributes [service.name], [service.version],
    [service.entryName] and [service.entryType], a tracer of that provider,
    and the composite of the trace-context and baggage propagators. *)
Theorem newOptionSet_defaults K App SemVersion
    (opts : list rkgintrace.Option) (r : rkgintrace.Registry) :
  Forall (fun o => Props.suppliesResource o = false) opts ->
  exists set,
    rkgintrace.OptionSets (snd (rkgintrace.newOptionSet K App SemVersion opts r))
      !! fst (rkgintrace.newOptionSet K App SemVersion opts r) = Some set /\
    rkgintrace.EntryName set = Props.traceEntryName K opts /\
    rkgintrace.Exporter set = Some sdktrace.NoopExporter /\
    rkgintrace.Processor set = Some (sdktrace.BatchSpanProcessor sdktrace.NoopExporter) /\
    (exists provider,
       rkgintrace.Provider set = Some provider /\
       provider =
         sdktrace.NewTracerProvider
           [ sdktrace.WithSampler sdktrace.AlwaysSample;
             sdktrace.WithSpanProcessor (sdktrace.BatchSpanProcessor sdktrace.NoopExporter);
             sdktrace.WithResource
               [ ("service.name", rkentry.AppName App);
                 ("service.version", rkentry.Version App);
                 ("service.entryName", rkgintrace.EntryName set);
                 ("service.entryType", rkgintrace.EntryType set) ] ] /\
       rkgintrace.Tracer set =
         Some (oteltrace.SdkTracer provider (rkgintrace.EntryName set) SemVersion)) /\
    rkgintrace.Propagator set =
      Some (propagation.NewCompositeTextMapPropagator
              [propagation.TraceContext; propagation.Baggage]).
Proof.
  intros Hopts.
  exists (rkgintrace.complete App SemVersion (rkgintrace.configured K opts)).
  split; [apply newOptionSet_returns_built|].
  destruct (applyOptions_resources opts
              (rkgintrace.MkOptionSet (rkgininter.RpcEntryNameValue K)
                 (rkgininter.RpcEntryTypeValue K) None None None None None) Hopts)
    as (He & Hp & Hv & Hg).
  simpl in He, Hp, Hv, Hg.
  unfold rkgintrace.complete, rkgintrace.configured, rkgintrace.resourceOf,
    rkgintrace.CreateNoopExporter, Props.traceEntryName, rkgintrace.configured.
  rewrite He, Hp, Hv, Hg. simpl.
  repeat split; try reflexivity.
  eexists. repeat split; reflexivity.
Qed.

Lemma newOptionSet_defaults_witness :
  Forall (fun o => Props.suppliesResource o = false)
    [rkgintrace.WithEntryNameAndType "svcA" "gin"; rkgintrace.WithExporter None] /\
  exists set,
    rkgintrace.OptionSets
      (snd (rkgintrace.newOptionSet Demo.K Demo.App "v0.20.0"
              [rkgintrace.WithEntryNameAndType "svcA" "gin"; rkgintrace.WithExporter None]
              Demo.emptyTrace)) !! 0 = Some set /\
    rkgintrace.Exporter set = Some sdktrace.NoopExporter /\
    rkgintrace.Propagator set =
      Some (propagation.NewCompositeTextMapPropagator
              [propagation.TraceContext; propagation.Baggage]).
Proof.
  assert (H : Forall (fun o => Props.suppliesResource o = false)
                [rkgintrace.WithEntryNameAndType "svcA" "gin"; rkgintrace.WithExporter None]).
  { repeat constructor. }
  split; [exact H|].
  destruct (newOptionSet_defaults Demo.K Demo.App "v0.20.0" _ Demo.emptyTrace H)
    as (set & Hset & _ & He & _ & _ & Hg).
  exists set. repeat split; assumption.
Defined.

(** The first construction for an entry registers the three instruments,
    each with the thirteen label keys. *)
Example construct_registers_instruments :
  rkginmetrics.optionsMap Demo.registered !! "svcA" = Some 0 /\
  rkginmetrics.OptionSets Demo.registered =
    [rkginmetrics.MkOptionSet "svcA" "gin" (Some prometheus.DefaultRegisterer) (Some 0)] /\
  rkginmetrics.MetricsSets Demo.registered =
    [rkprom.MkTableSet "rk" "svcA" prometheus.DefaultRegisterer
       {[ "elapsedNano" := rkginmetrics.DefaultLabelKeys ]}
       {[ "errors" := rkginmetrics.DefaultLabelKeys;
          "resCode" := rkginmetrics.DefaultLabelKeys ]}].
Proof. vm_compute. repeat split; reflexivity. Qed.

(* ================================================================== *)
(** * Two constructions under one entry name *)
(* ================================================================== *)

(** The metrics interceptor: the second construction leaves the entry the
    first one found or made where it is, with the option set and the
    metrics set it leads to, and every lookup by a request context gives
    what it gave before. *)
Lemma construct_twice B App MS (P : rkprom.Lib MS)
    (r0 : rkginmetrics.Registry MS) (opts1 opts2 : list rkginmetrics.Option) :
  Props.metricsWf r0 ->
  Props.metricsEntryName B opts1 = Props.metricsEntryName B opts2 ->
  let r1 := snd (rkginmetrics.construct B App MS P opts1 r0) in
  let r2 := snd (rkginmetrics.construct B App MS P opts2 r1) in
  exists addr set,
    rkginmetrics.optionsMap r1 !! Props.metricsEntryName B opts1 = Some addr /\
    rkginmetrics.OptionSets r1 !! addr = Some set /\
    rkginmetrics.optionsMap r2 = rkginmetrics.optionsMap r1 /\
    rkginmetrics.OptionSets r2 !! addr = Some set /\
    (forall ms, rkginmetrics.MetricsSet set = Some ms ->
       is_Some (rkginmetrics.MetricsSets r1 !! ms) /\
       rkginmetrics.MetricsSets r2 !! ms = rkginmetrics.MetricsSets r1 !! ms) /\
    (forall ctx, rkginmetrics.GetOptionSet B MS ctx r2 = rkginmetrics.GetOptionSet B MS ctx r1).
Proof.
  intros Hwf Hname r1 r2.
  destruct (construct_registers B App MS P opts1 r0) as [addr Haddr]. fold r1 in Haddr.
  pose proof (construct_wf B App MS P opts1 r0 Hwf) as Hwf1. fold r1 in Hwf1.
  destruct Hwf1 as [Hmap Hheap].
  destruct (lookup_lt_is_Some_2 (rkginmetrics.OptionSets r1) addr (Hmap _ _ Haddr))
    as [set Hset].
  assert (Haddr2 : rkginmetrics.optionsMap r1 !! Props.metricsEntryName B opts2 = Some addr)
    by (rewrite <- Hname; exact Haddr).
  destruct (construct_registered B App MS P opts2 r1 addr Haddr2) as (Hm & Ho & Hs).
  fold r2 in Hm, Ho, Hs.
  exists addr, set. repeat split.
  - exact Haddr.
  - exact Hset.
  - exact Hm.
  - rewrite Ho. apply lookup_app_l_Some. exact Hset.
  - apply lookup_lt_is_Some_2. eapply Hheap; eauto.
  - rewrite Hs. apply lookup_app_l. eapply Hheap; eauto.
  - intros [c|]; simpl; [rewrite Hm|]; reflexivity.
Qed.

(** The tracing option set: the second construction leaves the entry where
    it is, and returns a pointer to an option set of its own, built from
    its own arguments. *)
Lemma newOptionSet_twice K App SemVersion
    (t0 : rkgintrace.Registry) (opts1 opts2 : list rkgintrace.Option) :
  Props.traceWf t0 ->
  Props.traceEntryName K opts1 = Props.traceEntryName K opts2 ->
  let t1 := snd (rkgintrace.newOptionSet K App SemVersion opts1 t0) in
  let second := fst (rkgintrace.newOptionSet K App SemVersion opts2 t1) in
  let t2 := snd (rkgintrace.newOptionSet K App SemVersion opts2 t1) in
  exists addr set,
    rkgintrace.optionsMap t1 !! Props.traceEntryName K opts1 = Some addr /\
    rkgintrace.OptionSets t1 !! addr = Some set /\
    rkgintrace.optionsMap t2 = rkgintrace.optionsMap t1 /\
    rkgintrace.OptionSets t2 !! addr = Some set /\
    second <> addr /\
    rkgintrace.OptionSets t2 !! second =
      Some (rkgintrace.complete App SemVersion (rkgintrace.configured K opts2)).
Proof.
  intros Hwf Hname t1 second t2.
  destruct (newOptionSet_registers K App SemVersion opts1 t0) as [addr Haddr]. fold t1 in Haddr.
  pose proof (newOptionSet_wf K App SemVersion opts1 t0 Hwf) as Hwf1. fold t1 in Hwf1.
  pose proof (Hwf1 _ _ Haddr) as Hlt.
  destruct (lookup_lt_is_Some_2 (rkgintrace.OptionSets t1) addr Hlt) as [set Hset].
  assert (Haddr2 : rkgintrace.optionsMap t1 !! Props.traceEntryName K opts2 = Some addr)
    by (rewrite <- Hname; exact Haddr).
  destruct (newOptionSet_registered K App SemVersion opts2 t1 addr Haddr2) as (Hm & Ho).
  fold t2 in Hm, Ho.
  destruct (newOptionSet_returns_built K App SemVersion opts2 t1) as (Hfresh & Hbuilt).
  fold second in Hfresh, Hbuilt. fold t2 in Hbuilt.
  exists addr, set. repeat split.
  - exact Haddr.
  - exact Hset.
  - exact Hm.
  - rewrite Ho. apply lookup_app_l_Some. exact Hset.
  - rewrite Hfresh. lia.
  - exact Hbuilt.
Qed.

(** C1, as the code has it: of two constructions with the same entry name
    the second leaves the registry entry unchanged, with the option set
    and the metrics set it points to, and the metrics handler finds its
    option set through the registry.  [newOptionSet] keeps the registered
    option set in the registry as well, but what it returns is a pointer to
    a new option set, built from the arguments of the second call. *)
Theorem second_construction_keeps_registry B App MS (P : rkprom.Lib MS) K SemVersion
    (r0 : rkginmetrics.Registry MS) (opts1 opts2 : list rkginmetrics.Option)
    (t0 : rkgintrace.Registry) (topts1 topts2 : list rkgintrace.Option) :
  Props.metricsWf r0 ->
  Props.metricsEntryName B opts1 = Props.metricsEntryName B opts2 ->
  Props.traceWf t0 ->
  Props.traceEntryName K topts1 = Props.traceEntryName K topts2 ->
  let r1 := snd (rkginmetrics.construct B App MS P opts1 r0) in
  let r2 := snd (rkginmetrics.construct B App MS P opts2 r1) in
  let t1 := snd (rkgintrace.newOptionSet K App SemVersion topts1 t0) in
  let second := fst (rkgintrace.newOptionSet K App SemVersion topts2 t1) in
  let t2 := snd (rkgintrace.newOptionSet K App SemVersion topts2 t1) in
  (exists addr set,
     rkginmetrics.optionsMap r1 !! Props.metricsEntryName B opts1 = Some addr /\
     rkginmetrics.OptionSets r1 !! addr = Some set /\
     rkginmetrics.optionsMap r2 = rkginmetrics.optionsMap r1 /\
     rkginmetrics.OptionSets r2 !! addr = Some set /\
     (forall ms, rkginmetrics.MetricsSet set = Some ms ->
        is_Some (rkginmetrics.MetricsSets r1 !! ms) /\
        rkginmetrics.MetricsSets r2 !! ms = rkginmetrics.MetricsSets r1 !! ms) /\
     (forall ctx, rkginmetrics.GetOptionSet B MS ctx r2 = rkginmetrics.GetOptionSet B MS ctx r1)) /\
  (exists addr set,
     rkgintrace.optionsMap t1 !! Props.traceEntryName K topts1 = Some addr /\
     rkgintrace.OptionSets t1 !! addr = Some set /\
     rkgintrace.optionsMap t2 = rkgintrace.optionsMap t1 /\
     rkgintrace.OptionSets t2 !! addr = Some set /\
     second <> addr /\
     rkgintrace.OptionSets t2 !! second =
       Some (rkgintrace.complete App SemVersion (rkgintrace.configured K topts2))).
Proof.
  intros Hwf Hname Htwf Htname. split.
  - apply construct_twice; assumption.
  - apply newOptionSet_twice; assumption.
Qed.

Lemma second_construction_keeps_registry_witness :
  let opts1 := [rkginmetrics.WithEntryNameAndType "svcA" "gin"] in
  let opts2 := [rkginmetrics.WithEntryNameAndType "svcA" "grpc";
                rkginmetrics.WithRegisterer (Some (prometheus.CustomRegisterer 1))] in
  let topts1 := [rkgintrace.WithEntryNameAndType "svcA" "gin"] in
  let topts2 := [rkgintrace.WithEntryNameAndType "svcA" "grpc"] in
  let r1 := snd (rkginmetrics.construct Demo.B Demo.App _ rkprom.tables opts1 Demo.emptyMetrics) in
  let r2 := snd (rkginmetrics.construct Demo.B Demo.App _ rkprom.tables opts2 r1) in
  let t1 := snd (rkgintrace.newOptionSet Demo.K Demo.App "v0.20.0" topts1 Demo.emptyTrace) in
  let t2 := snd (rkgintrace.newOptionSet Demo.K Demo.App "v0.20.0" topts2 t1) in
  rkginmetrics.optionsMap r2 = rkginmetrics.optionsMap r1 /\
  rkgintrace.optionsMap t2 = rkgintrace.optionsMap t1.
Proof.
  intros opts1 opts2 topts1 topts2 r1 r2 t1 t2.
  destruct (second_construction_keeps_registry Demo.B Demo.App _ rkprom.tables Demo.K "v0.20.0"
              Demo.emptyMetrics opts1 opts2 Demo.emptyTrace topts1 topts2
              (metricsWf_empty _) eq_refl traceWf_empty eq_refl)
    as ((a & s & _ & _ & Hm & _) & (b & t & _ & _ & Ht & _)).
  split; [exact Hm | exact Ht].
Defined.

(** The second of two constructions of the tracing option set under the
    entry name [svcA] returns another pointer than the first: [newOptionSet]
    does not return the registered option set. *)
Lemma newOptionSet_second_is_not_first :
  ~ Props.secondReturnsFirst Demo.K Demo.App "v0.20.0"
      [rkgintrace.WithEntryNameAndType "svcA" "gin"]
      [rkgintrace.WithEntryNameAndType "svcA" "grpc"]
      Demo.emptyTrace.
Proof.
  unfold Props.secondReturnsFirst. rewrite !newOptionSet_unfold. simpl. discriminate.
Qed.

(** The option set the second call returns is made of the arguments of the
    second call, the registered one of those of the first. *)
Example newOptionSet_second_arguments :
  let '(first, r1) :=
    rkgintrace.newOptionSet Demo.K Demo.App "v0.20.0"
      [rkgintrace.WithEntryNameAndType "svcA" "gin"] Demo.emptyTrace in
  let '(second, r2) :=
    rkgintrace.newOptionSet Demo.K Demo.App "v0.20.0"
      [rkgintrace.WithEntryNameAndType "svcA" "grpc"] r1 in
  rkgintrace.optionsMap r2 !! "svcA" = Some first /\
  rkgintrace.EntryType <$> rkgintrace.OptionSets r2 !! first = Some "gin" /\
  rkgintrace.EntryType <$> rkgintrace.OptionSets r2 !! second = Some "grpc".
Proof. vm_compute. repeat split; reflexivity. Qed.

(* ================================================================== *)
(** * The empty entry name *)
(* ================================================================== *)

(** The metrics interceptor never registers under the empty name, provided
    the default name of the package is not empty. *)
Lemma metricsEntryName_not_empty B (opts : list rkginmetrics.Option) :
  rkginbasic.RkEntryNameValue B <> "" ->
  Props.metricsEntryName B opts <> "".
Proof.
  intros Hdefault. unfold Props.metricsEntryName, rkginmetrics.resolved.
  destruct (rkginmetrics.EntryName (rkginmetrics.configured B opts)) as [|a s] eqn:Hn; simpl.
  - exact Hdefault.
  - destruct (rkginmetrics.Registerer (rkginmetrics.configured B opts)); simpl.
    + discriminate.
    + exact Hdefault.
Qed.

(** C8, at the input where it fails: [newOptionSet] with the option
    [WithEntryNameAndType("", entryType)] registers the option set under
    the empty string; no default name takes its place. *)
Theorem newOptionSet_registers_empty_name K App SemVersion
    (entryType : string) (r : rkgintrace.Registry) :
  Props.traceEntryName K [rkgintrace.WithEntryNameAndType "" entryType] = "" /\
  is_Some
    (rkgintrace.optionsMap
       (snd (rkgintrace.newOptionSet K App SemVersion
               [rkgintrace.WithEntryNameAndType "" entryType] r)) !! "").
Proof.
  split; [reflexivity|].
  apply (newOptionSet_registers K App SemVersion
           [rkgintrace.WithEntryNameAndType "" entryType] r).
Qed.

Example newOptionSet_empty_name_key :
  rkgintrace.optionsMap
    (snd (rkgintrace.newOptionSet Demo.K Demo.App "v0.20.0"
            [rkgintrace.WithEntryNameAndType "" ""] Demo.emptyTrace)) !! "" = Some 0.
Proof. reflexivity. Qed.

(* ================================================================== *)
(** * Where the observations go *)
(* ================================================================== *)

Lemma GetServerMetricsSet_Some B MS (c : gin.Context)
    (r : rkginmetrics.Registry MS) (ms : nat) :
  rkginmetrics.GetServerMetricsSet B MS (Some c) r = Some ms ->
  exists addr set,
    rkginmetrics.optionsMap r !! gin.GetString c (rkginbasic.RkEntryNameKey B) = Some addr /\
    rkginmetrics.OptionSets r !! addr = Some set /\
    rkginmetrics.MetricsSet set = Some ms.
Proof.
  unfold rkginmetrics.GetServerMetricsSet, rkginmetrics.load, rkginmetrics.GetOptionSet.
  destruct (rkginmetrics.optionsMap r !! gin.GetString c (rkginbasic.RkEntryNameKey B))
    as [addr|]; [|discriminate].
  destruct (rkginmetrics.OptionSets r !! addr) as [set|] eqn:Hset; [|discriminate].
  intros H. exists addr, set. auto.
Qed.

Lemma told_Forall (Q : rkprom.Observation -> Prop)
    (tell : rkprom.Instrument -> rkprom.Observation) (m : option rkprom.Instrument) :
  (forall i, m = Some i -> Q (tell i)) -> Forall Q (Props.told tell m).
Proof.
  intros H. destruct m as [i|]; simpl; constructor; auto.
Qed.

(** Whatever the handler adds to the observations is on an instrument of
    the metrics set [GetServerMetricsSet] finds for the context. *)
Lemma handler_adds B App MS (P : rkprom.Lib MS) (set : nat)
    (next : rkginmetrics.HandlerFunc MS) (w w' : rkginmetrics.World MS) :
  next w = runtime.Returned tt w' ->
  exists added,
    rkginmetrics.Observed (runtime.worldOf (rkginmetrics.handler B App MS P set next w)) =
      rkginmetrics.Observed w' ++ added /\
    rkginmetrics.Reg (runtime.worldOf (rkginmetrics.handler B App MS P set next w)) =
      rkginmetrics.Reg w' /\
    Forall
      (fun o =>
         rkginmetrics.GetServerMetricsSet B MS (Some (rkginmetrics.Ctx w')) (rkginmetrics.Reg w') =
           Some (rkprom.OfSet (Props.instrumentOf o)))
      added.
Proof.
  intros Hnext. rewrite handler_run, Hnext.
  destruct (gin.Request (rkginmetrics.Ctx w')) as [req|].
  - destruct (rkginmetrics.ignored (http.RequestURI req)).
    + exists []. simpl. rewrite app_nil_r. auto.
    + eexists. simpl. split; [reflexivity|]. split; [reflexivity|].
      repeat apply Forall_app_2.
      * apply told_Forall. intros i Hi. simpl.
        eapply accessor_values. left. exact Hi.
      * destruct (Nat.ltb 0 (length (gin.Errors (rkginmetrics.Ctx w')))); [|constructor].
        apply told_Forall. intros i Hi. simpl.
        eapply accessor_values. right. left. exact Hi.
      * apply told_Forall. intros i Hi. simpl.
        eapply accessor_values. right. right. exact Hi.
  - exists []. simpl. rewrite app_nil_r. auto.
Qed.

(** Further constructions under a registered name leave the entry and its
    option set as they are. *)
Lemma constructAll_keeps B App MS (P : rkprom.Lib MS)
    (optss : list (list rkginmetrics.Option)) (r : rkginmetrics.Registry MS)
    (n : string) (addr : nat) (set : rkginmetrics.optionSet) :
  Forall (fun opts => Props.metricsEntryName B opts = n) optss ->
  rkginmetrics.optionsMap r !! n = Some addr ->
  rkginmetrics.OptionSets r !! addr = Some set ->
  rkginmetrics.optionsMap (Props.constructAll B App P optss r) !! n = Some addr /\
  rkginmetrics.OptionSets (Props.constructAll B App P optss r) !! addr = Some set.
Proof.
  intros Hall. revert r. induction Hall as [|opts optss Hn _ IH]; intros r Hmap Hset.
  - simpl. auto.
  - change (Props.constructAll B App P (opts :: optss) r)
      with (Props.constructAll B App P optss (snd (rkginmetrics.construct B App MS P opts r))).
    apply IH.
    + subst n. destruct (construct_registered B App MS P opts r addr Hmap) as (-> & _).
      exact Hmap.
    + apply construct_keeps_option_sets. exact Hset.
Qed.

(** The first construction under a name decides the metrics set: after
    any number of constructions under the name, the entry is the option
    set the first one allocated, with the metrics set the first one
    made. *)
Lemma constructAll_first B App MS (P : rkprom.Lib MS)
    (opts : list rkginmetrics.Option) (optss : list (list rkginmetrics.Option))
    (r0 : rkginmetrics.Registry MS) :
  rkginmetrics.optionsMap r0 !! Props.metricsEntryName B opts = None ->
  Forall (fun opts' => Props.metricsEntryName B opts' = Props.metricsEntryName B opts) optss ->
  let r := Props.constructAll B App P optss (snd (rkginmetrics.construct B App MS P opts r0)) in
  rkginmetrics.optionsMap r !! Props.metricsEntryName B opts =
    Some (length (rkginmetrics.OptionSets r0)) /\
  rkginmetrics.OptionSets r !! length (rkginmetrics.OptionSets r0) =
    Some (Props.metricsBuilt B opts (length (rkginmetrics.MetricsSets r0))).
Proof.
  intros Hnone Hall r. subst r.
  destruct (construct_unregistered B App MS P opts r0 Hnone) as (Hm & Ho & _).
  apply constructAll_keeps.
  - exact Hall.
  - rewrite Hm. apply lookup_insert_eq.
  - rewrite Ho. apply list_lookup_middle. reflexivity.
Qed.

(** C10: the handler does not depend on the option set its closure
    captures.  What it adds to the observations is on instruments of the
    metrics set of the option set [optionsMap] holds under the entry name
    of the request context, so there are observations only when that entry
    exists; and after any number of constructions under one entry name,
    the requests of that entry are recorded in the metrics set the first
    construction made. *)
Theorem handler_records_through_registry B App MS (P : rkprom.Lib MS) (set : nat)
    (next : rkginmetrics.HandlerFunc MS) (w w' : rkginmetrics.World MS) :
  next w = runtime.Returned tt w' ->
  (forall set', rkginmetrics.handler B App MS P set' next w =
                rkginmetrics.handler B App MS P set next w) /\
  exists added,
    rkginmetrics.Observed (runtime.worldOf (rkginmetrics.handler B App MS P set next w)) =
      rkginmetrics.Observed w' ++ added /\
    Forall
      (fun o =>
         exists addr registered,
           rkginmetrics.optionsMap (rkginmetrics.Reg w')
             !! gin.GetString (rkginmetrics.Ctx w') (rkginbasic.RkEntryNameKey B) = Some addr /\
           rkginmetrics.OptionSets (rkginmetrics.Reg w') !! addr = Some registered /\
           rkginmetrics.MetricsSet registered = Some (rkprom.OfSet (Props.instrumentOf o)))
      added /\
    (rkginmetrics.optionsMap (rkginmetrics.Reg w')
       !! gin.GetString (rkginmetrics.Ctx w') (rkginbasic.RkEntryNameKey B) = None ->
     added = []) /\
    (forall r0 opts optss,
       rkginmetrics.optionsMap r0 !! Props.metricsEntryName B opts = None ->
       Forall (fun opts' => Props.metricsEntryName B opts' = Props.metricsEntryName B opts) optss ->
       rkginmetrics.Reg w' =
         Props.constructAll B App P optss (snd (rkginmetrics.construct B App MS P opts r0)) ->
       gin.GetString (rkginmetrics.Ctx w') (rkginbasic.RkEntryNameKey B) =
         Props.metricsEntryName B opts ->
       Forall
         (fun o => rkprom.OfSet (Props.instrumentOf o) = length (rkginmetrics.MetricsSets r0))
         added).
Proof.
  intros Hnext. split; [reflexivity|].
  destruct (handler_adds B App MS P set next w w' Hnext) as (added & Hobs & _ & Hall).
  assert (Hreg : Forall
      (fun o =>
         exists addr registered,
           rkginmetrics.optionsMap (rkginmetrics.Reg w')
             !! gin.GetString (rkginmetrics.Ctx w') (rkginbasic.RkEntryNameKey B) = Some addr /\
           rkginmetrics.OptionSets (rkginmetrics.Reg w') !! addr = Some registered /\
           rkginmetrics.MetricsSet registered = Some (rkprom.OfSet (Props.instrumentOf o)))
      added).
  { eapply Forall_impl; [exact Hall|]. intros o Ho. simpl in Ho.
    apply GetServerMetricsSet_Some. exact Ho. }
  exists added. split; [exact Hobs|]. split; [exact Hreg|]. split.
  - intros Hnone. destruct Hreg as [|o rest (addr & s & Hsome & _) _]; [reflexivity|].
    rewrite Hnone in Hsome. discriminate.
  - intros r0 opts optss Hfresh Hsame Hr Hname.
    destruct (constructAll_first B App MS P opts optss r0 Hfresh Hsame) as (Hm & Ho).
    rewrite <- Hr in Hm, Ho.
    eapply Forall_impl; [exact Hreg|]. intros o (addr & s & Hsome & Hs & Hms). simpl.
    rewrite Hname, Hm in Hsome. inversion Hsome. subst addr.
    rewrite Ho in Hs. inversion Hs. subst s. simpl in Hms. inversion Hms. reflexivity.
Qed.

Lemma handler_ignores_internal_paths_witness :
  rkginmetrics.handler Demo.B Demo.App _ rkprom.tables 0 Demo.tick
    (Demo.metricsWorld "/sw/index.html") =
  runtime.Returned tt
    (rkginmetrics.MkWorld _ (rkginmetrics.Ctx (Demo.metricsWorld "/sw/index.html")) 1250
       Demo.registered []).
Proof.
  apply (handler_ignores_internal_paths Demo.B Demo.App _ rkprom.tables 0 Demo.tick
           (Demo.metricsWorld "/sw/index.html") _ (Demo.request "/sw/index.html")).
  - reflexivity.
  - reflexivity.
  - right. right. reflexivity.
Defined.

Lemma handler_observes_witness :
  rkginmetrics.Observed
    (runtime.worldOf
       (rkginmetrics.handler Demo.B Demo.App _ rkprom.tables 0 Demo.tick
          (Demo.metricsWorld "/v1/hello"))) =
  let values :=
    [ "svcA"; "gin"; "*"; "*"; "*"; "*"; "lark.local"; "v0.0.0"; "rk";
      "GET"; "/v1/hello"; "ginServer"; "200" ] in
  [ rkprom.Observe (rkprom.MkInstrument 0 "elapsedNano" values) 250;
    rkprom.Inc (rkprom.MkInstrument 0 "resCode" values) ].
Proof.
  rewrite (handler_observes Demo.B Demo.App _ rkprom.tables 0 Demo.tick
             (Demo.metricsWorld "/v1/hello")
             (rkginmetrics.MkWorld _ (rkginmetrics.Ctx (Demo.metricsWorld "/v1/hello")) 1250
                Demo.registered [])
             (Demo.request "/v1/hello") eq_refl eq_refl eq_refl).
  vm_compute. reflexivity.
Defined.

Lemma handler_records_through_registry_witness :
  exists added,
    rkginmetrics.Observed
      (runtime.worldOf
         (rkginmetrics.handler Demo.B Demo.App _ rkprom.tables 7 Demo.tick
            (Demo.metricsWorld "/v1/hello"))) = added /\
    Forall (fun o => rkprom.OfSet (Props.instrumentOf o) = 0) added.
Proof.
  destruct (handler_records_through_registry Demo.B Demo.App _ rkprom.tables 7 Demo.tick
              (Demo.metricsWorld "/v1/hello")
              (rkginmetrics.MkWorld _ (rkginmetrics.Ctx (Demo.metricsWorld "/v1/hello")) 1250
                 Demo.registered [])
              eq_refl) as (_ & added & Hobs & _ & _ & Hfirst).
  exists added. split; [exact Hobs|].
  apply (Hfirst Demo.emptyMetrics [rkginmetrics.WithEntryNameAndType "svcA" "gin"] []).
  - reflexivity.
  - constructor.
  - reflexivity.
  - reflexivity.
Defined.

(* ================================================================== *)
(** * Properties of the request-context getters *)
(* ================================================================== *)

(** C3, as the tests of the package have it: on a nil context, and on a
    context that stores nothing under the key (or has not set the header)
    a getter reads, [GetEvent] returns the no-op event, [GetLogger] the
    no-op logger, [GetTraceSpan], [GetTracer] and [GetTracerProvider] a
    no-op span, tracer and provider, which are not nil, [GetEntryName],
    [GetRequestId] and [GetTraceId] the empty string, and
    [GetTracerPropagator] nil; whatever else the context holds, and
    without a panic. *)
Theorem getters_default_when_absent K (g : Props.getter) (ctx : option gin.Context) :
  Props.absent K g ctx -> Props.defaulted K g ctx.
Proof.
  destruct g; unfold Props.absent, Props.defaulted, Props.missing, Props.missingHeader,
    Props.writerOf; destruct ctx as [c|]; intros H; try reflexivity.
  - unfold rkginctx.GetEvent. rewrite H. reflexivity.
  - unfold rkginctx.GetLogger. rewrite H. reflexivity.
  - unfold rkginctx.GetTraceSpan. rewrite H. reflexivity.
  - unfold rkginctx.GetTracer. rewrite H. reflexivity.
  - unfold rkginctx.GetTracerProvider. rewrite H. reflexivity.
  - unfold rkginctx.GetTracerPropagator. rewrite H. reflexivity.
  - unfold rkginctx.GetEntryName, gin.GetString. rewrite H. reflexivity.
  - unfold rkginctx.GetRequestId. destruct (gin.Writer c) as [w|]; [|reflexivity].
    unfold gin.HeaderGet. rewrite H. reflexivity.
  - unfold rkginctx.GetTraceId. destruct (gin.Writer c) as [w|]; [|reflexivity].
    unfold gin.HeaderGet. rewrite H. reflexivity.
Qed.

Lemma getters_default_when_absent_witness :
  rkginctx.GetTraceSpan Demo.K (Some (Demo.context "/v1/hello")) = Some oteltrace.NoopSpan /\
  rkginctx.GetTracerPropagator Demo.K None = None.
Proof.
  split.
  - apply (getters_default_when_absent Demo.K Props.OfSpan (Some (Demo.context "/v1/hello"))).
    reflexivity.
  - apply (getters_default_when_absent Demo.K Props.OfPropagator None). exact I.
Defined.

(** The getters of the tracing state that have a no-op to return do not
    return nil. *)
Lemma tracing_getters_non_nil K (ctx : option gin.Context) :
  Props.nonNil (rkginctx.GetTraceSpan K ctx) /\
  Props.nonNil (rkginctx.GetTracer K ctx) /\
  Props.nonNil (rkginctx.GetTracerProvider K ctx).
Proof.
  unfold Props.nonNil, rkginctx.GetTraceSpan, rkginctx.GetTracer, rkginctx.GetTracerProvider.
  repeat split; destruct ctx as [c|]; try discriminate.
  - destruct (gin.Get c (rkgininter.RpcSpanKey K)) as [[]|]; discriminate.
  - destruct (gin.Get c (rkgininter.RpcTracerKey K)) as [[]|]; discriminate.
  - destruct (gin.Get c (rkgininter.RpcTracerProviderKey K)) as [[]|]; discriminate.
Qed.

(** On the nil context [GetTracerPropagator] returns nil, not a no-op
    propagator: the propagator getter has no non-nil default. *)
Lemma GetTracerPropagator_nil_on_nil_context :
  Props.absent Demo.K Props.OfPropagator None /\
  ~ Props.nonNil (rkginctx.GetTracerPropagator Demo.K None).
Proof.
  split; [exact I|]. intros H. apply H. reflexivity.
Qed.

(* ================================================================== *)
(** * Properties of the panic interceptor *)
(* ================================================================== *)

Section PanicInterceptor.
Variable K : rkgininter.Consts.
Variable E : rkerror.Lib.
Variable stack : string.

Local Abbreviation event := (fun w => rkginctx.GetEvent K (Some (rkginpanic.Ctx w))).
Local Abbreviation logger := (fun w => rkginctx.GetLogger K (Some (rkginpanic.Ctx w))).

(** The interceptor returns when the next stage returns, and runs the
    recovery on the world a panic has left. *)
Lemma Interceptor_run (next : rkginpanic.HandlerFunc) (w : rkginpanic.World) :
  rkginpanic.Interceptor K E stack next w =
  match next w with
  | runtime.Returned _ w' => runtime.Returned tt w'
  | runtime.Panicked recv w' => rkginpanic.recovery K E stack recv w'
  end.
Proof. reflexivity. Qed.

(** The three cases of the type switch. *)
Lemma classify_cases (recv : runtime.any) :
  match recv with
  | runtime.ErrorRespPtr se => rkginpanic.classify E recv = se
  | runtime.ErrorValue re => rkginpanic.classify E recv = Some (rkerror.FromError E re)
  | runtime.OtherValue repr => rkginpanic.classify E recv = Some (rkerror.NewWithMessage E repr)
  end.
Proof. destruct recv; reflexivity. Qed.



(** The recovery when [res] is nil: the counter is set, and the field
    access [res.Err] panics. *)
Lemma recovery_nil (recv : runtime.any) (w : rkginpanic.World) :
  rkginpanic.classify E recv = None ->
  rkginpanic.recovery K E stack recv w =
    runtime.Panicked (runtime.ErrorValue Go.nilDereference)
      (rkginpanic.MkWorld (rkginpanic.Ctx w)
         (rkquery.SetCounter (event w) "panic" 1 (rkginpanic.Events w))
         (rkginpanic.Log w)).
Proof.
  intros Hres. unfold rkginpanic.recovery. rewrite Hres. reflexivity.
Qed.


End PanicInterceptor.

(** C2, at the input where it fails: when the next stage panics with a
    nil [*rkerror.ErrorResp], the deferred function recovers the value,
    takes it as [res], and panics itself on [res.Err]; the interceptor
    ends in that panic and the writer is as the next stage left it, so
    no response of status 500 is written. *)
Theorem Interceptor_panics_on_nil_ErrorResp K E stack
    (next : rkginpanic.HandlerFunc) (w w' : rkginpanic.World) :
  next w = runtime.Panicked (runtime.ErrorRespPtr None) w' ->
  let o := rkginpanic.Interceptor K E stack next w in
  (exists w'', o = runtime.Panicked (runtime.ErrorValue Go.nilDereference) w'') /\
  runtime.returned o = false /\
  gin.Writer (rkginpanic.Ctx (runtime.worldOf o)) = gin.Writer (rkginpanic.Ctx w').
Proof.
  intros Hnext o. subst o.
  rewrite Interceptor_run, Hnext, recovery_nil by reflexivity.
  simpl. eauto.
Qed.

Lemma Interceptor_panics_on_nil_ErrorResp_witness :
  let o :=
    rkginpanic.Interceptor Demo.K Demo.E "goroutine 1 [running]"
      (runtime.panic (runtime.ErrorRespPtr None)) Demo.panicWorld in
  runtime.returned o = false /\
  gin.Writer (rkginpanic.Ctx (runtime.worldOf o)) = Some Demo.writer.
Proof.
  apply (Interceptor_panics_on_nil_ErrorResp Demo.K Demo.E "goroutine 1 [running]"
           (runtime.panic (runtime.ErrorRespPtr None)) Demo.panicWorld Demo.panicWorld eq_refl).
Defined.

(** C6, at the input where it fails: a nil [*rkerror.ErrorResp] falls in
    the first case of the type switch and is used as it is; the counter
    [panic] is set to 1 on the event, and then nothing more happens: no
    error is added to the event, nothing is logged and nothing is
    written. *)
Theorem recovery_of_nil_ErrorResp_stops_after_counter K E stack (w : rkginpanic.World) :
  let o := rkginpanic.recovery K E stack (runtime.ErrorRespPtr None) w in
  rkginpanic.classify E (runtime.ErrorRespPtr None) = None /\
  rkginpanic.Events (runtime.worldOf o) =
    rkquery.SetCounter (rkginctx.GetEvent K (Some (rkginpanic.Ctx w))) "panic" 1
      (rkginpanic.Events w) /\
  rkginpanic.Log (runtime.worldOf o) = rkginpanic.Log w /\
  rkginpanic.Ctx (runtime.worldOf o) = rkginpanic.Ctx w /\
  runtime.returned o = false.
Proof.
  intros o. subst o. rewrite recovery_nil by reflexivity. simpl. auto.
Qed.

(** On the request of the examples: the event has the counter and no
    error, the log is empty. *)
Example recovery_of_nil_ErrorResp_event :
  let o :=
    rkginpanic.recovery Demo.K Demo.E "goroutine 1 [running]"
      (runtime.ErrorRespPtr None) Demo.panicWorld in
  rkginpanic.Events (runtime.worldOf o) = [rkquery.MkEventData {[ "panic" := 1%Z ]} []] /\
  rkginpanic.Log (runtime.worldOf o) = [].
Proof. vm_compute. split; reflexivity. Qed.

(** The same request with a panic on a plain error: the event has the
    counter and the error, the log has the entry, the response is
    written. *)
Example recovery_of_error_event :
  let o :=
    rkginpanic.recovery Demo.K Demo.E "goroutine 1 [running]"
      (runtime.ErrorValue (Go.MkGoError "boom")) Demo.panicWorld in
  let err := rkerror.MkError 500 "Internal Server Error" "boom" [] in
  runtime.returned o = true /\
  rkginpanic.Events (runtime.worldOf o) = [rkquery.MkEventData {[ "panic" := 1%Z ]} [err]] /\
  (zap.EntryLevel <$> rkginpanic.Log (runtime.worldOf o)) = [zap.ErrorLevel] /\
  (gin.StatusCode <$> gin.Writer (rkginpanic.Ctx (runtime.worldOf o))) = Some 500%Z /\
  (gin.Body <$> gin.Writer (rkginpanic.Ctx (runtime.worldOf o))) =
    Some [gin.JSONBody (Some (rkerror.MkErrorResp err))].
Proof. vm_compute. repeat split; reflexivity. Qed.

(* ================================================================== *)
(** * Further properties of the metrics interceptor *)
(* ================================================================== *)

Section MetricsOptions.
Variable B : rkginbasic.Vars.

Lemma applyOptions_snoc (opts : list rkginmetrics.Option) (o : rkginmetrics.Option)
    (set : rkginmetrics.optionSet) :
  rkginmetrics.applyOptions (opts ++ [o]) set =
    rkginmetrics.applyOption o (rkginmetrics.applyOptions opts set).
Proof. unfold rkginmetrics.applyOptions. rewrite fold_left_app. reflexivity. Qed.

Lemma nonempty_length (s : string) :
  Nat.ltb 0 (String.length s) = if decide (s = "") then false else true.
Proof. destruct s; reflexivity. Qed.

(** The fields of the option set after the options: each is what the last
    option that supplies one has given, and the default when none does;
    an empty name, an empty type and a nil registerer supply nothing. *)
Lemma configured_fields (opts : list rkginmetrics.Option) :
  rkginmetrics.EntryName (rkginmetrics.configured B opts) =
    default (rkginbasic.RkEntryNameValue B) (last (omap Props.metricsName opts)) /\
  rkginmetrics.EntryType (rkginmetrics.configured B opts) =
    default (rkginbasic.RkEntryTypeValue B) (last (omap Props.metricsType opts)) /\
  rkginmetrics.Registerer (rkginmetrics.configured B opts) =
    Some (default prometheus.DefaultRegisterer (last (omap Props.metricsRegisterer opts))) /\
  rkginmetrics.MetricsSet (rkginmetrics.configured B opts) = None.
Proof.
  unfold rkginmetrics.configured.
  induction opts as [|o opts IH] using rev_ind; [simpl; auto|].
  rewrite applyOptions_snoc, !omap_app.
  destruct IH as (Hn & Ht & Hr & Hm).
  destruct o as [n t|[g|]]; simpl.
  - rewrite !nonempty_length.
    destruct (decide (n = "")), (decide (t = "")); simpl;
      rewrite ?app_nil_r, ?last_snoc; simpl; auto.
  - rewrite !app_nil_r, last_snoc. simpl. auto.
  - rewrite !app_nil_r. auto.
Qed.

End MetricsOptions.

(** X1: when the default entry name of the package is not empty, the
    fallback branch of [MetricsPromInterceptor] is never taken: the
    interceptor registers under the last non-empty name an option has
    given, or under the default name, and the metrics set is made with the
    last non-nil registerer an option has given, or with the default
    registerer. *)
Theorem MetricsPromInterceptor_entry_name B (opts : list rkginmetrics.Option) :
  rkginbasic.RkEntryNameValue B <> "" ->
  rkginmetrics.resolved B (rkginmetrics.configured B opts) =
    (default (rkginbasic.RkEntryNameValue B) (last (omap Props.metricsName opts)),
     default prometheus.DefaultRegisterer (last (omap Props.metricsRegisterer opts))) /\
  Props.metricsEntryName B opts <> "".
Proof.
  intros Hdefault.
  destruct (configured_fields B opts) as (Hn & _ & Hr & _).
  assert (Hne : default (rkginbasic.RkEntryNameValue B)
                  (last (omap Props.metricsName opts)) <> "").
  { destruct (last (omap Props.metricsName opts)) as [n|] eqn:Hlast; simpl; [|exact Hdefault].
    apply last_Some_elem_of in Hlast. apply list_elem_of_omap in Hlast.
    destruct Hlast as (o & _ & Ho). destruct o as [n' t|g]; simpl in Ho; [|discriminate].
    destruct (decide (n' = "")); [discriminate|]. inversion Ho. subst. assumption. }
  assert (Hres : rkginmetrics.resolved B (rkginmetrics.configured B opts) =
    (default (rkginbasic.RkEntryNameValue B) (last (omap Props.metricsName opts)),
     default prometheus.DefaultRegisterer (last (omap Props.metricsRegisterer opts)))).
  { unfold rkginmetrics.resolved. rewrite Hn, Hr, nonempty_length.
    destruct (decide (default (rkginbasic.RkEntryNameValue B)
                        (last (omap Props.metricsName opts)) = "")); [contradiction|].
    reflexivity. }
  split; [exact Hres|].
  unfold Props.metricsEntryName. rewrite Hres. exact Hne.
Qed.

Lemma MetricsPromInterceptor_entry_name_witness :
  Props.metricsEntryName Demo.B
    [ rkginmetrics.WithEntryNameAndType "svcA" "gin";
      rkginmetrics.WithRegisterer None;
      rkginmetrics.WithEntryNameAndType "" "grpc" ] <> "".
Proof.
  apply (MetricsPromInterceptor_entry_name Demo.B). discriminate.
Defined.

Section MetricsInvariant.
Variable B : rkginbasic.Vars.
Variable App : rkentry.AppInfoEntry.
Variable MS : Type.
Variable P : rkprom.Lib MS.
Variable U : rkprom.Unregister MS.

Local Abbreviation construct := (rkginmetrics.construct B App MS P).
Local Abbreviation name := (Props.metricsEntryName B).

Lemma metricsInv_empty : Props.metricsInv (rkginmetrics.MkRegistry MS ∅ [] []).
Proof.
  repeat split; simpl.
  - intros n a H. rewrite lookup_empty in H. discriminate.
  - intros a s H. rewrite lookup_nil in H. discriminate.
  - intros a a' s s' H. rewrite lookup_nil in H. discriminate.
Qed.

(** What a construction does to the two heaps, whether the name is
    registered or not. *)
Lemma construct_heaps opts (r : rkginmetrics.Registry MS) :
  rkginmetrics.OptionSets (snd (construct opts r)) =
    rkginmetrics.OptionSets r ++
    [Props.metricsBuilt B opts (length (rkginmetrics.MetricsSets r))] /\
  length (rkginmetrics.MetricsSets (snd (construct opts r))) =
    S (length (rkginmetrics.MetricsSets r)).
Proof.
  destruct (rkginmetrics.optionsMap r !! name opts) as [a|] eqn:Hn.
  - destruct (construct_registered B App MS P opts r a Hn) as (_ & -> & ->).
    rewrite length_app. simpl. split; [reflexivity|lia].
  - destruct (construct_unregistered B App MS P opts r Hn) as (_ & -> & ->).
    rewrite initMetrics_length, length_app. simpl. split; [reflexivity|lia].
Qed.

(** A construction changes [optionsMap] at its own entry name at most, and
    only when the name is not registered. *)
Lemma construct_map opts (r : rkginmetrics.Registry MS) (n : string) :
  rkginmetrics.optionsMap (snd (construct opts r)) !! n =
    match rkginmetrics.optionsMap r !! n with
    | Some addr => Some addr
    | None => if decide (n = name opts) then Some (length (rkginmetrics.OptionSets r)) else None
    end.
Proof.
  destruct (rkginmetrics.optionsMap r !! name opts) as [a|] eqn:Hn.
  - destruct (construct_registered B App MS P opts r a Hn) as (-> & _).
    destruct (rkginmetrics.optionsMap r !! n) as [a'|] eqn:Hn'; [reflexivity|].
    destruct (decide (n = name opts)) as [->|]; [congruence|reflexivity].
  - destruct (construct_unregistered B App MS P opts r Hn) as (-> & _).
    destruct (decide (n = name opts)) as [->|Hne].
    + rewrite lookup_insert_eq, Hn. reflexivity.
    + rewrite lookup_insert_ne by congruence.
      destruct (rkginmetrics.optionsMap r !! n); reflexivity.
Qed.

(** Constructions keep the invariant of the registry. *)
Lemma construct_inv opts (r : rkginmetrics.Registry MS) :
  Props.metricsInv r -> Props.metricsInv (snd (construct opts r)).
Proof.
  intros (Hmap & Hheap & Hinj).
  destruct (construct_heaps opts r) as (Ho & Hs).
  repeat split.
  - intros n a H. rewrite construct_map in H. rewrite Ho.
    destruct (rkginmetrics.optionsMap r !! n) as [a'|] eqn:Hn.
    + inversion H. subst a'. destruct (Hmap n a Hn) as (s & Hset & Hname).
      exists s. split; [apply lookup_app_l_Some; exact Hset|exact Hname].
    + destruct (decide (n = name opts)) as [->|]; [|discriminate].
      inversion H. subst a. eexists. split; [apply list_lookup_middle; reflexivity|reflexivity].
  - intros a s H. rewrite Ho in H. rewrite Hs.
    apply lookup_app_Some in H. destruct H as [H|[_ H]].
    + destruct (Hheap a s H) as (ms & Hms & Hlt). exists ms. split; [exact Hms|lia].
    + destruct (a - length (rkginmetrics.OptionSets r)) as [|k]; simpl in H.
      * inversion H. subst s. eexists. split; [reflexivity|lia].
      * rewrite lookup_nil in H. discriminate.
  - intros a a' s s' H H' Heq. rewrite Ho in H, H'.
    apply lookup_app_Some in H. apply lookup_app_Some in H'.
    destruct H as [H|[Hge H]], H' as [H'|[Hge' H']].
    + eapply Hinj; eauto.
    + destruct (Hheap a s H) as (ms & Hms & Hlt).
      destruct (a' - length (rkginmetrics.OptionSets r)) as [|k]; simpl in H';
        [|rewrite lookup_nil in H'; discriminate].
      inversion H'. subst s'. rewrite Hms in Heq. simpl in Heq. inversion Heq. lia.
    + destruct (Hheap a' s' H') as (ms & Hms & Hlt).
      destruct (a - length (rkginmetrics.OptionSets r)) as [|k]; simpl in H;
        [|rewrite lookup_nil in H; discriminate].
      inversion H. subst s. rewrite Hms in Heq. simpl in Heq. inversion Heq. lia.
    + destruct (a - length (rkginmetrics.OptionSets r)) as [|k] eqn:Ha; simpl in H;
        [|rewrite lookup_nil in H; discriminate].
      destruct (a' - length (rkginmetrics.OptionSets r)) as [|k'] eqn:Ha'; simpl in H';
        [|rewrite lookup_nil in H'; discriminate].
      lia.
Qed.

Lemma constructAll_inv optss (r : rkginmetrics.Registry MS) :
  Props.metricsInv r -> Props.metricsInv (Props.constructAll B App P optss r).
Proof.
  revert r. induction optss as [|opts optss IH]; intros r Hinv; [exact Hinv|].
  apply (IH (snd (construct opts r))). apply construct_inv. exact Hinv.
Qed.

(** Under the invariant a registered entry name leads all the way to a
    metrics set. *)
Lemma registered_metrics_set (r : rkginmetrics.Registry MS) (c : gin.Context) (addr : nat) :
  Props.metricsInv r ->
  rkginmetrics.optionsMap r !! gin.GetString c (rkginbasic.RkEntryNameKey B) = Some addr ->
  exists set ms,
    rkginmetrics.OptionSets r !! addr = Some set /\
    rkginmetrics.EntryName set = gin.GetString c (rkginbasic.RkEntryNameKey B) /\
    rkginmetrics.MetricsSet set = Some ms /\
    ms < length (rkginmetrics.MetricsSets r) /\
    rkginmetrics.load MS r (rkginmetrics.GetOptionSet B MS (Some c) r) = Some set /\
    rkginmetrics.GetServerMetricsSet B MS (Some c) r = Some ms.
Proof.
  intros (Hmap & Hheap & _) Haddr.
  destruct (Hmap _ _ Haddr) as (set & Hset & Hname).
  destruct (Hheap _ _ Hset) as (ms & Hms & Hlt).
  exists set, ms.
  unfold rkginmetrics.GetServerMetricsSet, rkginmetrics.load, rkginmetrics.GetOptionSet.
  rewrite Haddr, Hset. repeat split; assumption.
Qed.

End MetricsInvariant.

(** X2: in a registry built by constructions, a request whose context
    names a registered entry always finds a metrics set that exists, and
    the [entryName] label of its observations, the first of the label
    values, is that entry name. *)
Theorem registered_request_is_labelled B App MS (P : rkprom.Lib MS)
    (optss : list (list rkginmetrics.Option)) (c : gin.Context) (addr : nat) :
  let r := Props.constructAll B App P optss (rkginmetrics.MkRegistry MS ∅ [] []) in
  rkginmetrics.optionsMap r !! gin.GetString c (rkginbasic.RkEntryNameKey B) = Some addr ->
  (exists ms,
     rkginmetrics.GetServerMetricsSet B MS (Some c) r = Some ms /\
     is_Some (rkginmetrics.MetricsSets r !! ms)) /\
  head (rkginmetrics.getValues B App MS (Some c) r) =
    Some (gin.GetString c (rkginbasic.RkEntryNameKey B)).
Proof.
  intros r Haddr.
  assert (Hinv : Props.metricsInv r) by (apply constructAll_inv, metricsInv_empty).
  destruct (registered_metrics_set B MS r c addr Hinv Haddr)
    as (set & ms & _ & Hname & _ & Hlt & Hload & Hms).
  split.
  - exists ms. split; [exact Hms|]. apply lookup_lt_is_Some_2. exact Hlt.
  - unfold rkginmetrics.getValues. rewrite Hload, Hname.
    destruct (gin.Request c); reflexivity.
Qed.

Lemma registered_request_is_labelled_witness :
  head (rkginmetrics.getValues Demo.B Demo.App _
          (Some (rkginmetrics.Ctx (Demo.metricsWorld "/v1/hello")))
          (Props.constructAll Demo.B Demo.App rkprom.tables
             [[rkginmetrics.WithEntryNameAndType "svcA" "gin"]] Demo.emptyMetrics)) =
    Some "svcA".
Proof.
  apply (registered_request_is_labelled Demo.B Demo.App _ rkprom.tables
           [[rkginmetrics.WithEntryNameAndType "svcA" "gin"]]
           (rkginmetrics.Ctx (Demo.metricsWorld "/v1/hello")) 0).
  reflexivity.
Defined.

(** X3: entries do not share metrics sets.  In a registry built by
    constructions, what the handler records for a request of one entry is
    never on an instrument of the metrics set registered for another
    entry name. *)
Theorem handler_keeps_entries_apart B App MS (P : rkprom.Lib MS) (set : nat)
    (next : rkginmetrics.HandlerFunc MS) (w w' : rkginmetrics.World MS)
    (optss : list (list rkginmetrics.Option))
    (other : string) (addr : nat) (registered : rkginmetrics.optionSet) (ms : nat) :
  next w = runtime.Returned tt w' ->
  rkginmetrics.Reg w' =
    Props.constructAll B App P optss (rkginmetrics.MkRegistry MS ∅ [] []) ->
  other <> gin.GetString (rkginmetrics.Ctx w') (rkginbasic.RkEntryNameKey B) ->
  rkginmetrics.optionsMap (rkginmetrics.Reg w') !! other = Some addr ->
  rkginmetrics.OptionSets (rkginmetrics.Reg w') !! addr = Some registered ->
  rkginmetrics.MetricsSet registered = Some ms ->
  exists added,
    rkginmetrics.Observed (runtime.worldOf (rkginmetrics.handler B App MS P set next w)) =
      rkginmetrics.Observed w' ++ added /\
    Forall (fun o => rkprom.OfSet (Props.instrumentOf o) <> ms) added.
Proof.
  intros Hnext Hreg Hother Haddr Hset Hms.
  assert (Hinv : Props.metricsInv (rkginmetrics.Reg w'))
    by (rewrite Hreg; apply constructAll_inv, metricsInv_empty).
  destruct (handler_adds B App MS P set next w w' Hnext) as (added & Hobs & _ & Hall).
  exists added. split; [exact Hobs|].
  eapply Forall_impl; [exact Hall|]. intros o Ho Heq. simpl in Ho.
  apply GetServerMetricsSet_Some in Ho. destruct Ho as (addr' & set' & Haddr' & Hset' & Hms').
  destruct Hinv as (Hmap & _ & Hinj).
  assert (addr = addr').
  { eapply Hinj; eauto. rewrite Hms, Hms', Heq. reflexivity. }
  subst addr'.
  destruct (Hmap _ _ Haddr) as (s1 & Hs1 & Hn1).
  destruct (Hmap _ _ Haddr') as (s2 & Hs2 & Hn2).
  rewrite Hs1 in Hs2. inversion Hs2. subst s2. congruence.
Qed.

Lemma handler_keeps_entries_apart_witness :
  exists added,
    rkginmetrics.Observed
      (runtime.worldOf
         (rkginmetrics.handler Demo.B Demo.App _ rkprom.tables 0 Demo.tick
            (Demo.twoEntriesWorld "/v1/hello"))) = [] ++ added /\
    Forall (fun o => rkprom.OfSet (Props.instrumentOf o) <> 1) added.
Proof.
  apply (handler_keeps_entries_apart Demo.B Demo.App _ rkprom.tables 0 Demo.tick
           (Demo.twoEntriesWorld "/v1/hello")
           (rkginmetrics.MkWorld _ (rkginmetrics.Ctx (Demo.twoEntriesWorld "/v1/hello")) 1250
              Demo.twoEntries [])
           [ [rkginmetrics.WithEntryNameAndType "svcA" "gin"];
             [rkginmetrics.WithEntryNameAndType "svcB" "gin"] ]
           "svcB" 1
           (rkginmetrics.MkOptionSet "svcB" "gin" (Some prometheus.DefaultRegisterer) (Some 1))
           1).
  - reflexivity.
  - reflexivity.
  - vm_compute. discriminate.
  - reflexivity.
  - reflexivity.
  - reflexivity.
Defined.

(** X4: first registration wins for every entry.  In a registry built by
    constructions, a construction under whatever name leaves every
    registered entry pointing to the option set it pointed to, and that
    option set with the metrics set it had, instruments included. *)
Theorem construct_keeps_every_entry B App MS (P : rkprom.Lib MS)
    (optss : list (list rkginmetrics.Option)) (opts : list rkginmetrics.Option)
    (name : string) (addr : nat) :
  let r := Props.constructAll B App P optss (rkginmetrics.MkRegistry MS ∅ [] []) in
  let r' := snd (rkginmetrics.construct B App MS P opts r) in
  rkginmetrics.optionsMap r !! name = Some addr ->
  exists set ms s,
    rkginmetrics.optionsMap r' !! name = Some addr /\
    rkginmetrics.OptionSets r !! addr = Some set /\
    rkginmetrics.OptionSets r' !! addr = Some set /\
    rkginmetrics.MetricsSet set = Some ms /\
    rkginmetrics.MetricsSets r !! ms = Some s /\
    rkginmetrics.MetricsSets r' !! ms = Some s.
Proof.
  intros r r' Haddr.
  assert (Hinv : Props.metricsInv r) by (apply constructAll_inv, metricsInv_empty).
  destruct Hinv as (Hmap & Hheap & _).
  destruct (Hmap _ _ Haddr) as (set & Hset & _).
  destruct (Hheap _ _ Hset) as (ms & Hms & Hlt).
  destruct (lookup_lt_is_Some_2 _ _ Hlt) as [s Hs].
  exists set, ms, s. repeat split; try assumption.
  - unfold r'. rewrite construct_map, Haddr. reflexivity.
  - apply construct_keeps_option_sets. exact Hset.
  - apply construct_keeps_metrics_sets. exact Hs.
Qed.

Lemma construct_keeps_every_entry_witness :
  rkginmetrics.optionsMap
    (snd (rkginmetrics.construct Demo.B Demo.App _ rkprom.tables
            [rkginmetrics.WithEntryNameAndType "svcC" "gin"] Demo.twoEntries)) !! "svcB" =
    Some 1.
Proof.
  destruct (construct_keeps_every_entry Demo.B Demo.App _ rkprom.tables
              [ [rkginmetrics.WithEntryNameAndType "svcA" "gin"];
                [rkginmetrics.WithEntryNameAndType "svcB" "gin"] ]
              [rkginmetrics.WithEntryNameAndType "svcC" "gin"] "svcB" 1 eq_refl)
    as (set & ms & s & H & _).
  exact H.
Defined.

(** X5: in a registry built by constructions, [ListServerMetricsSets]
    returns one metrics set for each registered entry name: as many
    pointers as [optionsMap] has entries, none of them nil or dangling,
    and no two of them the same. *)
Theorem ListServerMetricsSets_one_per_entry B App MS (P : rkprom.Lib MS)
    (optss : list (list rkginmetrics.Option)) :
  let r := Props.constructAll B App P optss (rkginmetrics.MkRegistry MS ∅ [] []) in
  length (rkginmetrics.ListServerMetricsSets MS r) = size (rkginmetrics.optionsMap r) /\
  NoDup (rkginmetrics.ListServerMetricsSets MS r) /\
  Forall (fun p => exists ms, p = Some ms /\ is_Some (rkginmetrics.MetricsSets r !! ms))
    (rkginmetrics.ListServerMetricsSets MS r).
Proof.
  intros r.
  assert (Hinv : Props.metricsInv r) by (apply constructAll_inv, metricsInv_empty).
  destruct Hinv as (Hmap & Hheap & Hinj).
  unfold rkginmetrics.ListServerMetricsSets. repeat split.
  - rewrite length_fmap. apply length_map_to_list.
  - apply NoDup_fmap_2_strong; [|apply NoDup_map_to_list].
    intros [n1 a1] [n2 a2] H1 H2 Heq. simpl in Heq.
    apply elem_of_map_to_list in H1, H2.
    destruct (Hmap _ _ H1) as (s1 & Hs1 & Hn1). destruct (Hmap _ _ H2) as (s2 & Hs2 & Hn2).
    rewrite Hs1, Hs2 in Heq.
    assert (a1 = a2) by (eapply Hinj; eauto). subst a2.
    rewrite Hs1 in Hs2. inversion Hs2. subst s2. congruence.
  - apply Forall_fmap, Forall_forall. intros [n a] H. simpl.
    apply elem_of_map_to_list in H.
    destruct (Hmap _ _ H) as (s & Hs & _). destruct (Hheap _ _ Hs) as (ms & Hms & Hlt).
    rewrite Hs. exists ms. split; [exact Hms|]. apply lookup_lt_is_Some_2. exact Hlt.
Qed.

Section ClearAllMetrics.
Variable B : rkginbasic.Vars.
Variable App : rkentry.AppInfoEntry.
Variable MS : Type.
Variable P : rkprom.Lib MS.
Variable U : rkprom.Unregister MS.

Lemma unregisterAll_length (heap : list rkginmetrics.optionSet) (sets : list MS) (addr : nat) :
  length (rkginmetrics.unregisterAll MS U heap sets addr) = length sets.
Proof.
  unfold rkginmetrics.unregisterAll.
  destruct (heap !! addr) as [v|]; [|reflexivity].
  destruct (rkginmetrics.MetricsSet v) as [ms|]; [|reflexivity].
  destruct (sets !! ms); [apply length_insert|reflexivity].
Qed.

Lemma clearAllMetrics_length (r : rkginmetrics.Registry MS) :
  length (rkginmetrics.MetricsSets (rkginmetrics.clearAllMetrics MS U r)) =
    length (rkginmetrics.MetricsSets r).
Proof.
  unfold rkginmetrics.clearAllMetrics. simpl.
  generalize (rkginmetrics.MetricsSets r) as sets.
  induction (map_to_list (rkginmetrics.optionsMap r)) as [|entry entries IH]; intros sets.
  - reflexivity.
  - simpl. rewrite IH. apply unregisterAll_length.
Qed.

(** [clearAllMetrics] keeps the invariant of the registry. *)
Lemma clearAllMetrics_inv (r : rkginmetrics.Registry MS) :
  Props.metricsInv r -> Props.metricsInv (rkginmetrics.clearAllMetrics MS U r).
Proof.
  intros (Hmap & Hheap & Hinj). repeat split.
  - intros n a H. simpl in H. rewrite lookup_empty in H. discriminate.
  - intros a s H. rewrite clearAllMetrics_length. apply (Hheap a s). exact H.
  - exact Hinj.
Qed.

End ClearAllMetrics.

(** X6: after [clearAllMetrics] the interceptor is off for every entry:
    whatever the request context, the three accessors return nil, and a
    handler that runs on the cleared registry records nothing. *)
Theorem clearAllMetrics_disables B App MS (P : rkprom.Lib MS) (U : rkprom.Unregister MS)
    (r : rkginmetrics.Registry MS) (set : nat)
    (next : rkginmetrics.HandlerFunc MS) (w w' : rkginmetrics.World MS) :
  next w = runtime.Returned tt w' ->
  rkginmetrics.Reg w' = rkginmetrics.clearAllMetrics MS U r ->
  (forall ctx,
     rkginmetrics.GetServerDurationMetrics B App MS P ctx (rkginmetrics.Reg w') = None /\
     rkginmetrics.GetServerErrorMetrics B App MS P ctx (rkginmetrics.Reg w') = None /\
     rkginmetrics.GetServerResCodeMetrics B App MS P ctx (rkginmetrics.Reg w') = None) /\
  rkginmetrics.Observed (runtime.worldOf (rkginmetrics.handler B App MS P set next w)) =
    rkginmetrics.Observed w'.
Proof.
  intros Hnext Hreg.
  assert (Hnone : forall ctx, rkginmetrics.GetServerMetricsSet B MS ctx (rkginmetrics.Reg w') = None).
  { intros [c|]; [|reflexivity]. rewrite Hreg.
    unfold rkginmetrics.GetServerMetricsSet, rkginmetrics.load, rkginmetrics.GetOptionSet.
    simpl. rewrite lookup_empty. reflexivity. }
  split.
  - intros ctx.
    unfold rkginmetrics.GetServerDurationMetrics, rkginmetrics.GetServerErrorMetrics,
      rkginmetrics.GetServerResCodeMetrics.
    rewrite Hnone. destruct ctx; auto.
  - destruct (handler_adds B App MS P set next w w' Hnext) as (added & Hobs & _ & Hall).
    rewrite Hobs. destruct Hall as [|o rest Ho _]; [apply app_nil_r|].
    rewrite Hnone in Ho. discriminate.
Qed.

Lemma clearAllMetrics_disables_witness :
  rkginmetrics.Observed
    (runtime.worldOf
       (rkginmetrics.handler Demo.B Demo.App _ rkprom.tables 0 Demo.tick
          (rkginmetrics.MkWorld _ (rkginmetrics.Ctx (Demo.metricsWorld "/v1/hello")) 1000
             (rkginmetrics.clearAllMetrics _ rkprom.tablesUnregister Demo.registered) []))) = [].
Proof.
  apply (clearAllMetrics_disables Demo.B Demo.App _ rkprom.tables rkprom.tablesUnregister
           Demo.registered 0 Demo.tick
           (rkginmetrics.MkWorld _ (rkginmetrics.Ctx (Demo.metricsWorld "/v1/hello")) 1000
              (rkginmetrics.clearAllMetrics _ rkprom.tablesUnregister Demo.registered) [])
           (rkginmetrics.MkWorld _ (rkginmetrics.Ctx (Demo.metricsWorld "/v1/hello")) 1250
              (rkginmetrics.clearAllMetrics _ rkprom.tablesUnregister Demo.registered) [])
           eq_refl eq_refl).
Defined.

(** X7: [clearAllMetrics] forgets the entries but frees nothing, so a
    construction after it starts afresh: in a registry built by
    constructions and then cleared, the next construction registers its
    entry name, and only that name, with a new option set and a new
    metrics set. *)
Theorem construct_after_clearAllMetrics B App MS (P : rkprom.Lib MS)
    (U : rkprom.Unregister MS) (optss : list (list rkginmetrics.Option))
    (opts : list rkginmetrics.Option) :
  let r := Props.constructAll B App P optss (rkginmetrics.MkRegistry MS ∅ [] []) in
  let r' := snd (rkginmetrics.construct B App MS P opts (rkginmetrics.clearAllMetrics MS U r)) in
  rkginmetrics.optionsMap r' =
    {[ Props.metricsEntryName B opts := length (rkginmetrics.OptionSets r) ]} /\
  rkginmetrics.OptionSets r' !! length (rkginmetrics.OptionSets r) =
    Some (Props.metricsBuilt B opts (length (rkginmetrics.MetricsSets r))) /\
  length (rkginmetrics.MetricsSets r') = S (length (rkginmetrics.MetricsSets r)) /\
  Props.metricsInv r'.
Proof.
  intros r r'.
  assert (Hinv : Props.metricsInv r) by (apply constructAll_inv, metricsInv_empty).
  pose proof (clearAllMetrics_inv MS U r Hinv) as Hinv'.
  assert (Hnone : rkginmetrics.optionsMap (rkginmetrics.clearAllMetrics MS U r)
                    !! Props.metricsEntryName B opts = None) by apply lookup_empty.
  destruct (construct_unregistered B App MS P opts _ Hnone) as (Hm & Ho & _).
  destruct (construct_heaps B App MS P opts (rkginmetrics.clearAllMetrics MS U r)) as (_ & Hs).
  fold r' in Hm, Ho, Hs. rewrite clearAllMetrics_length in Hs, Ho.
  split; [rewrite Hm; reflexivity|].
  split; [rewrite Ho; apply list_lookup_middle; reflexivity|].
  split; [exact Hs|].
  apply construct_inv. exact Hinv'.
Qed.

(** X8: the handler measures only what returns.  It returns exactly when
    the next stage has returned and left a request in the context.  When
    the next stage panics the handler ends in the same panic, and when the
    request is nil it panics on reading the request URI; in both cases the
    world, observations included, is as the next stage left it. *)
Theorem handler_records_only_on_return B App MS (P : rkprom.Lib MS) (set : nat)
    (next : rkginmetrics.HandlerFunc MS) (w : rkginmetrics.World MS) :
  match rkginmetrics.handler B App MS P set next w with
  | runtime.Returned _ _ =>
      exists w' req,
        next w = runtime.Returned tt w' /\ gin.Request (rkginmetrics.Ctx w') = Some req
  | runtime.Panicked v w'' =>
      w'' = runtime.worldOf (next w) /\
      (next w = runtime.Panicked v w'' \/
       v = runtime.ErrorValue Go.nilDereference /\
       next w = runtime.Returned tt w'' /\ gin.Request (rkginmetrics.Ctx w'') = None)
  end.
Proof.
  rewrite handler_run.
  destruct (next w) as [[] w'|v w'] eqn:Hnext.
  - destruct (gin.Request (rkginmetrics.Ctx w')) as [req|] eqn:Hreq.
    + destruct (rkginmetrics.ignored (http.RequestURI req)); simpl; eauto.
    + simpl. auto.
  - simpl. auto.
Qed.



(** X20: the option set a closure captures is the registered one exactly
    when its entry name was not registered before the construction.  Under
    a name that was, the construction still makes an option set and a
    metrics set, but no entry leads to them: no request context finds that
    metrics set, whatever its entry name. *)
Theorem construct_registers_captured_iff B App MS (P : rkprom.Lib MS)
    (optss : list (list rkginmetrics.Option)) (opts : list rkginmetrics.Option) :
  let r := Props.constructAll B App P optss (rkginmetrics.MkRegistry MS ∅ [] []) in
  let captured := fst (rkginmetrics.construct B App MS P opts r) in
  let r' := snd (rkginmetrics.construct B App MS P opts r) in
  (rkginmetrics.optionsMap r' !! Props.metricsEntryName B opts = Some captured <->
   rkginmetrics.optionsMap r !! Props.metricsEntryName B opts = None) /\
  rkginmetrics.OptionSets r' !! captured =
    Some (Props.metricsBuilt B opts (length (rkginmetrics.MetricsSets r))) /\
  (rkginmetrics.optionsMap r !! Props.metricsEntryName B opts <> None ->
   (forall name, rkginmetrics.optionsMap r' !! name <> Some captured) /\
   (forall ctx, rkginmetrics.GetServerMetricsSet B MS ctx r' <>
                Some (length (rkginmetrics.MetricsSets r)))).
Proof.
  intros r captured r'.
  assert (Hinv : Props.metricsInv r) by (apply constructAll_inv, metricsInv_empty).
  destruct Hinv as (Hmap & Hheap & _).
  assert (Hcap : captured = length (rkginmetrics.OptionSets r)) by apply construct_fresh.
  destruct (construct_heaps B App MS P opts r) as (Ho & _). fold r' in Ho.
  assert (Hold : forall n a, rkginmetrics.optionsMap r !! n = Some a ->
                             a < length (rkginmetrics.OptionSets r)).
  { intros n a Hn. destruct (Hmap _ _ Hn) as (s & Hs & _).
    apply lookup_lt_Some in Hs. exact Hs. }
  split; [|split].
  - unfold r'. rewrite construct_map, Hcap.
    destruct (rkginmetrics.optionsMap r !! Props.metricsEntryName B opts) as [a|] eqn:Hn.
    + split; [|discriminate]. intros H. inversion H. subst a.
      apply Hold in Hn. lia.
    + destruct (decide (Props.metricsEntryName B opts = Props.metricsEntryName B opts));
        [tauto|contradiction].
  - rewrite Ho, Hcap. apply list_lookup_middle. reflexivity.
  - intros Hreg.
    assert (Hsame : forall n, rkginmetrics.optionsMap r' !! n = Some captured -> False).
    { intros n H. unfold r' in H. rewrite construct_map, Hcap in H.
      destruct (rkginmetrics.optionsMap r !! n) as [a|] eqn:Hn.
      - inversion H. subst a. apply Hold in Hn. lia.
      - destruct (decide (n = Props.metricsEntryName B opts)) as [->|]; [|discriminate].
        contradiction. }
    split; [exact Hsame|].
    intros [c|] H; [|discriminate].
    apply GetServerMetricsSet_Some in H. destruct H as (addr & set & Haddr & Hset & Hms).
    destruct (decide (addr = captured)) as [->|Hne]; [eapply Hsame; eauto|].
    rewrite Ho in Hset. apply lookup_app_Some in Hset. destruct Hset as [Hset|[Hge Hset]].
    + destruct (Hheap _ _ Hset) as (ms & Hms' & Hlt). rewrite Hms in Hms'.
      inversion Hms'. lia.
    + destruct (addr - length (rkginmetrics.OptionSets r)) as [|k] eqn:Hk; simpl in Hset.
      * apply Hne. rewrite Hcap. lia.
      * rewrite lookup_nil in Hset. discriminate.
Qed.

(* ================================================================== *)
(** * Further properties of the tracing option set *)
(* ================================================================== *)

Section TraceOptions.
Variable K : rkgininter.Consts.
Variable App : rkentry.AppInfoEntry.
Variable SemVersion : string.

Lemma trace_applyOptions_snoc (opts : list rkgintrace.Option) (o : rkgintrace.Option)
    (set : rkgintrace.optionSet) :
  rkgintrace.applyOptions (opts ++ [o]) set =
    rkgintrace.applyOption o (rkgintrace.applyOptions opts set).
Proof. unfold rkgintrace.applyOptions. rewrite fold_left_app. reflexivity. Qed.

(** The fields of the option set after the options: each is what the last
    option that supplies one has given; a nil exporter, processor,
    provider or propagator supplies nothing, a name and a type always
    do. *)
Lemma trace_configured_fields (opts : list rkgintrace.Option) :
  let set := rkgintrace.configured K opts in
  (rkgintrace.EntryName set, rkgintrace.EntryType set) =
    default (rkgininter.RpcEntryNameValue K, rkgininter.RpcEntryTypeValue K)
      (last (omap Props.traceNames opts)) /\
  rkgintrace.Exporter set = last (omap Props.traceExporter opts) /\
  rkgintrace.Processor set = last (omap Props.traceProcessor opts) /\
  rkgintrace.Provider set = last (omap Props.traceProvider opts) /\
  rkgintrace.Propagator set = last (omap Props.tracePropagator opts) /\
  rkgintrace.Tracer set = None.
Proof.
  unfold rkgintrace.configured.
  induction opts as [|o opts IH] using rev_ind; [simpl; auto 10|].
  rewrite trace_applyOptions_snoc, !omap_app.
  simpl in IH. destruct IH as (Hn & He & Hp & Hv & Hg & Ht).
  destruct o as [[e|]|[p|]|[p|]|[p|]|n t]; simpl;
    rewrite ?app_nil_r, ?last_snoc; simpl; auto 10.
Qed.

Lemma complete_is_complete (set : rkgintrace.optionSet) :
  let set' := rkgintrace.complete App SemVersion set in
  is_Some (rkgintrace.Exporter set') /\ is_Some (rkgintrace.Processor set') /\
  is_Some (rkgintrace.Provider set') /\ is_Some (rkgintrace.Propagator set') /\
  is_Some (rkgintrace.Tracer set').
Proof. simpl. repeat split; eauto. Qed.

Lemma traceInv_empty : Props.traceInv (rkgintrace.MkRegistry ∅ []).
Proof.
  split; simpl.
  - intros n a H. rewrite lookup_empty in H. discriminate.
  - intros a s H. rewrite lookup_nil in H. discriminate.
Qed.

Lemma newOptionSet_heap opts (r : rkgintrace.Registry) :
  rkgintrace.OptionSets (snd (rkgintrace.newOptionSet K App SemVersion opts r)) =
    rkgintrace.OptionSets r ++
    [rkgintrace.complete App SemVersion (rkgintrace.configured K opts)].
Proof.
  rewrite newOptionSet_unfold. simpl.
  destruct (rkgintrace.optionsMap r !! Props.traceEntryName K opts); reflexivity.
Qed.

(** [newOptionSet] changes [optionsMap] at its own entry name at most, and
    only when the name is not registered. *)
Lemma newOptionSet_map opts (r : rkgintrace.Registry) (n : string) :
  rkgintrace.optionsMap (snd (rkgintrace.newOptionSet K App SemVersion opts r)) !! n =
    match rkgintrace.optionsMap r !! n with
    | Some addr => Some addr
    | None =>
        if decide (n = Props.traceEntryName K opts)
        then Some (length (rkgintrace.OptionSets r)) else None
    end.
Proof.
  rewrite newOptionSet_unfold. simpl.
  destruct (rkgintrace.optionsMap r !! Props.traceEntryName K opts) as [a|] eqn:Hn; simpl.
  - destruct (rkgintrace.optionsMap r !! n) as [a'|] eqn:Hn'; [reflexivity|].
    destruct (decide (n = Props.traceEntryName K opts)) as [->|]; [congruence|reflexivity].
  - destruct (decide (n = Props.traceEntryName K opts)) as [->|Hne].
    + rewrite lookup_insert_eq, Hn. reflexivity.
    + rewrite lookup_insert_ne by congruence.
      destruct (rkgintrace.optionsMap r !! n); reflexivity.
Qed.

(** Constructions keep the invariant of the registry. *)
Lemma newOptionSet_inv opts (r : rkgintrace.Registry) :
  Props.traceInv r ->
  Props.traceInv (snd (rkgintrace.newOptionSet K App SemVersion opts r)).
Proof.
  intros (Hmap & Hheap). split.
  - intros n a H. rewrite newOptionSet_map in H. rewrite newOptionSet_heap.
    destruct (rkgintrace.optionsMap r !! n) as [a'|] eqn:Hn.
    + inversion H. subst a'. destruct (Hmap n a Hn) as (s & Hset & Hname).
      exists s. split; [apply lookup_app_l_Some; exact Hset|exact Hname].
    + destruct (decide (n = Props.traceEntryName K opts)) as [->|]; [|discriminate].
      inversion H. subst a. eexists. split; [apply list_lookup_middle; reflexivity|reflexivity].
  - intros a s H. rewrite newOptionSet_heap in H.
    apply lookup_app_Some in H. destruct H as [H|[_ H]].
    + apply (Hheap a s H).
    + destruct (a - length (rkgintrace.OptionSets r)) as [|k]; simpl in H.
      * inversion H. apply complete_is_complete.
      * rewrite lookup_nil in H. discriminate.
Qed.

End TraceOptions.

(** X9: what [newOptionSet] returns, read off the options.  The entry name
    and type are those of the last [WithEntryNameAndType], empty strings
    included; the exporter, the processor, the provider and the propagator
    are each the last non-nil one supplied.  A missing exporter is the
    no-op exporter, a missing processor batches to the exporter, a missing
    provider samples always and uses the processor, and the tracer is
    always a tracer of the provider: so a supplied provider is used as it
    is, whatever exporter or processor comes with it. *)
Theorem newOptionSet_result K App SemVersion
    (opts : list rkgintrace.Option) (r : rkgintrace.Registry) :
  let names :=
    default (rkgininter.RpcEntryNameValue K, rkgininter.RpcEntryTypeValue K)
      (last (omap Props.traceNames opts)) in
  let exporter := default sdktrace.NoopExporter (last (omap Props.traceExporter opts)) in
  let processor :=
    default (sdktrace.BatchSpanProcessor exporter) (last (omap Props.traceProcessor opts)) in
  let provider :=
    default
      (sdktrace.NewTracerProvider
         [ sdktrace.WithSampler sdktrace.AlwaysSample;
           sdktrace.WithSpanProcessor processor;
           sdktrace.WithResource
             [ ("service.name", rkentry.AppName App);
               ("service.version", rkentry.Version App);
               ("service.entryName", names.1);
               ("service.entryType", names.2) ] ])
      (last (omap Props.traceProvider opts)) in
  let propagator :=
    default
      (propagation.NewCompositeTextMapPropagator
         [propagation.TraceContext; propagation.Baggage])
      (last (omap Props.tracePropagator opts)) in
  rkgintrace.OptionSets (snd (rkgintrace.newOptionSet K App SemVersion opts r))
    !! fst (rkgintrace.newOptionSet K App SemVersion opts r) =
  Some (rkgintrace.MkOptionSet names.1 names.2 (Some exporter) (Some processor)
          (Some provider) (Some propagator)
          (Some (oteltrace.SdkTracer provider names.1 SemVersion))).
Proof.
  intros names exporter processor provider propagator.
  destruct (newOptionSet_returns_built K App SemVersion opts r) as (_ & ->).
  f_equal.
  destruct (trace_configured_fields K opts) as (Hn & He & Hp & Hv & Hg & _).
  simpl in Hn, He, Hp, Hv, Hg.
  unfold rkgintrace.complete, rkgintrace.resourceOf, rkgintrace.CreateNoopExporter.
  rewrite He, Hp, Hv, Hg.
  subst names exporter processor provider propagator.
  rewrite <- Hn. simpl.
  destruct (last (omap Props.traceExporter opts)),
    (last (omap Props.traceProcessor opts)),
    (last (omap Props.traceProvider opts)),
    (last (omap Props.tracePropagator opts)); reflexivity.
Qed.

Example newOptionSet_supplied_provider_ignores_exporter :
  let provider := sdktrace.NewTracerProvider [sdktrace.WithSampler sdktrace.NeverSample] in
  let exporter := sdktrace.JaegerExporter "http://collector:14268/api/traces" "" "" in
  rkgintrace.OptionSets
    (snd (rkgintrace.newOptionSet Demo.K Demo.App "v0.20.0"
            [ rkgintrace.WithExporter (Some exporter);
              rkgintrace.WithTracerProvider (Some provider) ] Demo.emptyTrace)) !! 0 =
  Some (rkgintrace.MkOptionSet "gin" "gin" (Some exporter)
          (Some (sdktrace.BatchSpanProcessor exporter)) (Some provider)
          (Some (propagation.NewCompositeTextMapPropagator
                   [propagation.TraceContext; propagation.Baggage]))
          (Some (oteltrace.SdkTracer provider "gin" "v0.20.0"))).
Proof. reflexivity. Qed.

Lemma newOptionSets_inv K App SemVersion optss (r : rkgintrace.Registry) :
  Props.traceInv r -> Props.traceInv (Props.newOptionSets K App SemVersion optss r).
Proof.
  revert r. induction optss as [|opts optss IH]; intros r Hinv; [exact Hinv|].
  apply (IH (snd (rkgintrace.newOptionSet K App SemVersion opts r))).
  apply newOptionSet_inv. exact Hinv.
Qed.



(** X11: [newOptionSet] returns the registered option set exactly when its
    entry name was not registered before.  Under a name that was, the
    option set it returns is in no entry of the registry, so that
    [ShutdownExporters], which ranges over the registry, never reaches the
    exporter of that option set. *)
Theorem newOptionSet_returns_registered_iff K App SemVersion
    (optss : list (list rkgintrace.Option)) (opts : list rkgintrace.Option) :
  let r := Props.newOptionSets K App SemVersion optss (rkgintrace.MkRegistry ∅ []) in
  let returned := fst (rkgintrace.newOptionSet K App SemVersion opts r) in
  let r' := snd (rkgintrace.newOptionSet K App SemVersion opts r) in
  (rkgintrace.optionsMap r' !! Props.traceEntryName K opts = Some returned <->
   rkgintrace.optionsMap r !! Props.traceEntryName K opts = None) /\
  (rkgintrace.optionsMap r !! Props.traceEntryName K opts <> None ->
   forall name, rkgintrace.optionsMap r' !! name <> Some returned).
Proof.
  intros r returned r'.
  assert (Hinv : Props.traceInv r) by (apply newOptionSets_inv, traceInv_empty).
  destruct Hinv as (Hmap & _).
  assert (Hret : returned = length (rkgintrace.OptionSets r))
    by apply newOptionSet_returns_built.
  assert (Hold : forall n a, rkgintrace.optionsMap r !! n = Some a ->
                             a <> length (rkgintrace.OptionSets r)).
  { intros n a Hn. destruct (Hmap _ _ Hn) as (s & Hs & _).
    apply lookup_lt_Some in Hs. lia. }
  split.
  - unfold r'. rewrite newOptionSet_map, Hret.
    destruct (rkgintrace.optionsMap r !! Props.traceEntryName K opts) as [a|] eqn:Hn.
    + split; [|discriminate]. intros H. inversion H. exfalso. eapply Hold; eauto.
    + destruct (decide (Props.traceEntryName K opts = Props.traceEntryName K opts));
        [tauto|contradiction].
  - intros Hreg n H. unfold r' in H. rewrite newOptionSet_map, Hret in H.
    destruct (rkgintrace.optionsMap r !! n) as [a|] eqn:Hn.
    + inversion H. eapply Hold; eauto.
    + destruct (decide (n = Props.traceEntryName K opts)) as [->|]; [|discriminate].
      contradiction.
Qed.

(* ================================================================== *)
(** * Strings *)
(* ================================================================== *)

Lemma string_app_cons (x : ascii) (a b : string) :
  String x a +:+ b = String x (a +:+ b).
Proof. reflexivity. Qed.

Lemma string_app_assoc (a b c : string) : (a +:+ b) +:+ c = a +:+ (b +:+ c).
Proof.
  induction a as [|x a IH]; [reflexivity|].
  rewrite !string_app_cons, IH. reflexivity.
Qed.

Lemma string_app_length (a b : string) :
  String.length (a +:+ b) = String.length a + String.length b.
Proof.
  induction a as [|x a IH]; [reflexivity|].
  rewrite string_app_cons. cbn [String.length]. rewrite IH. reflexivity.
Qed.

Lemma substring_all (s : string) : String.substring 0 (String.length s) s = s.
Proof.
  induction s as [|x s IH]; [reflexivity|].
  cbn [String.length String.substring]. rewrite IH. reflexivity.
Qed.

Lemma substring_skip (a b : string) (n : nat) :
  String.substring (String.length a) n (a +:+ b) = String.substring 0 n b.
Proof.
  induction a as [|x a IH]; [reflexivity|].
  rewrite string_app_cons. cbn [String.length String.substring]. exact IH.
Qed.

Lemma substring_take (a b : string) :
  String.substring 0 (String.length a) (a +:+ b) = a.
Proof.
  induction a as [|x a IH]; [destruct b; reflexivity|].
  rewrite string_app_cons. cbn [String.length String.substring]. rewrite IH. reflexivity.
Qed.

Lemma HasPrefix_app (p s : string) : Go.HasPrefix (p +:+ s) p = true.
Proof.
  unfold Go.HasPrefix. induction p as [|x p IH]; [destruct s; reflexivity|].
  rewrite string_app_cons. cbn [String.prefix].
  destruct (ascii_dec x x); [exact IH|contradiction].
Qed.

Lemma HasPrefix_app_r (p s t : string) :
  Go.HasPrefix s p = true -> Go.HasPrefix (s +:+ t) p = true.
Proof.
  unfold Go.HasPrefix. revert s. induction p as [|x p IH]; intros s H.
  - destruct (s +:+ t); reflexivity.
  - destruct s as [|y s]; [discriminate|].
    rewrite string_app_cons. cbn [String.prefix] in *.
    destruct (ascii_dec x y); [apply IH; exact H|discriminate].
Qed.

(** A string with a prefix is the prefix followed by what [TrimPrefix]
    leaves. *)
Lemma HasPrefix_TrimPrefix (s p : string) :
  Go.HasPrefix s p = true -> s = p +:+ Go.TrimPrefix s p.
Proof.
  intros H. unfold Go.TrimPrefix. rewrite H. unfold Go.HasPrefix in H.
  revert s H. induction p as [|x p IH]; intros s H.
  - cbn [String.length]. rewrite Nat.sub_0_r, substring_all. reflexivity.
  - destruct s as [|y s]; [discriminate|].
    cbn [String.prefix] in H. destruct (ascii_dec x y) as [->|]; [|discriminate].
    rewrite string_app_cons. cbn [String.length String.substring Nat.sub].
    f_equal. apply IH. exact H.
Qed.

Lemma TrimPrefix_app (p s : string) : Go.TrimPrefix (p +:+ s) p = s.
Proof.
  unfold Go.TrimPrefix. rewrite HasPrefix_app, string_app_length, substring_skip.
  replace (String.length p + String.length s - String.length p) with (String.length s) by lia.
  apply substring_all.
Qed.

Lemma HasSuffix_app (s suffix : string) : Go.HasSuffix (s +:+ suffix) suffix = true.
Proof.
  unfold Go.HasSuffix. rewrite string_app_length.
  replace (String.length s + String.length suffix - String.length suffix)
    with (String.length s) by lia.
  rewrite substring_skip, substring_all, String.eqb_refl.
  rewrite andb_true_r. apply Nat.leb_le. lia.
Qed.

Lemma TrimSuffix_app (s suffix : string) : Go.TrimSuffix (s +:+ suffix) suffix = s.
Proof.
  unfold Go.TrimSuffix. rewrite HasSuffix_app, string_app_length.
  replace (String.length s + String.length suffix - String.length suffix)
    with (String.length s) by lia.
  apply substring_take.
Qed.

(** X12: the collector endpoint of [CreateJaegerExporter] is the scheme
    [http://], the host, and the path [/api/traces], where the host is the
    argument without a leading [http://], and [localhost:14268] when the
    argument is empty.  Only that scheme is recognised: any other start of
    the argument is kept as part of the host. *)
Theorem collectorEndpoint_shape (endpoint : string) :
  rkgintrace.collectorEndpoint endpoint =
    "http://" +:+
    Go.TrimPrefix (if decide (endpoint = "") then "localhost:14268" else endpoint) "http://" +:+
    "/api/traces" /\
  Go.HasPrefix (rkgintrace.collectorEndpoint endpoint) "http://" = true /\
  Go.HasSuffix (rkgintrace.collectorEndpoint endpoint) "/api/traces" = true.
Proof.
  assert (Heq : rkgintrace.collectorEndpoint endpoint =
    "http://" +:+
    Go.TrimPrefix (if decide (endpoint = "") then "localhost:14268" else endpoint) "http://" +:+
    "/api/traces").
  { unfold rkgintrace.collectorEndpoint.
    destruct (decide (endpoint = "")) as [->|Hne]; [reflexivity|].
    replace (Nat.ltb (String.length endpoint) 1) with false
      by (destruct endpoint; [contradiction|reflexivity]).
    destruct (Go.HasPrefix endpoint "http://") eqn:Hp; cbn [negb].
    - rewrite <- string_app_assoc, <- (HasPrefix_TrimPrefix endpoint "http://" Hp).
      reflexivity.
    - unfold Go.TrimPrefix. rewrite Hp. apply string_app_assoc. }
  split; [exact Heq|]. split.
  - rewrite Heq. apply (HasPrefix_app "http://").
  - rewrite Heq, <- string_app_assoc. apply HasSuffix_app.
Qed.

Example collectorEndpoint_examples :
  rkgintrace.collectorEndpoint "" = "http://localhost:14268/api/traces" /\
  rkgintrace.collectorEndpoint "collector:14268" = "http://collector:14268/api/traces" /\
  rkgintrace.collectorEndpoint "http://collector:14268" = "http://collector:14268/api/traces" /\
  rkgintrace.collectorEndpoint "https://collector" = "http://https://collector/api/traces".
Proof. repeat split; reflexivity. Qed.

(* ================================================================== *)
(** * Further properties of the panic interceptor *)
(* ================================================================== *)


Section PanicRecords.
Variable K : rkgininter.Consts.
Variable E : rkerror.Lib.
Variable stack : string.


End PanicRecords.





(* ================================================================== *)
(** * Properties of the swagger entry *)
(* ================================================================== *)

Lemma sw_options_fields (entry : rkgin.SwEntry) (opts : list rkgin.SwOption) :
  let entry' := fold_left (fun entry o => rkgin.applySwOption o entry) opts entry in
  rkgin.EntryName entry' = default (rkgin.EntryName entry) (last (omap Props.swName opts)) /\
  rkgin.Port entry' = default (rkgin.Port entry) (last (omap Props.swPort opts)) /\
  rkgin.Path entry' = default (rkgin.Path entry) (last (omap Props.swPath opts)).
Proof.
  induction opts as [|o opts IH] using rev_ind; [simpl; auto|].
  rewrite fold_left_app, !omap_app. simpl in *. destruct IH as (Hn & Hp & Hpath).
  destruct o; simpl; rewrite ?app_nil_r, ?last_snoc; simpl; auto.
  repeat split; try assumption.
  destruct path; reflexivity.
Qed.

Lemma FormatUint_not_empty (i : N) : "ginSwEntry-" +:+ Go.FormatUint i <> "".
Proof. discriminate. Qed.

(** X16: whatever the options, the path of the entry [NewSwEntry] builds
    starts and ends with a slash, and its name is not empty: the name is
    the last one given, and [ginSwEntry-] followed by the port when that
    name is empty. *)
Theorem NewSwEntry_normalised (zapLoggerEntry eventLoggerEntry : option nat)
    (opts : list rkgin.SwOption) :
  let entry := rkgin.NewSwEntry zapLoggerEntry eventLoggerEntry opts in
  Go.HasPrefix (rkgin.Path entry) "/" = true /\
  Go.HasSuffix (rkgin.Path entry) "/" = true /\
  rkgin.EntryName entry <> "" /\
  rkgin.EntryName entry =
    (let name := default rkgin.SwEntryNameDefault (last (omap Props.swName opts)) in
     if decide (name = "")
     then "ginSwEntry-" +:+ Go.FormatUint (default 0%N (last (omap Props.swPort opts)))
     else name).
Proof.
  intros entry. subst entry. unfold rkgin.NewSwEntry.
  destruct (sw_options_fields
              (rkgin.MkSwEntry rkgin.SwEntryNameDefault rkgin.SwEntryType
                 rkgin.SwEntryDescription eventLoggerEntry zapLoggerEntry "" "sw" ∅ 0%N false)
              opts) as (Hn & Hp & _).
  simpl in Hn, Hp.
  set (e0 := fold_left (fun entry o => rkgin.applySwOption o entry) opts _) in *.
  set (e1 := if negb (Go.HasPrefix (rkgin.Path e0) "/")
             then rkgin.setPath e0 ("/" +:+ rkgin.Path e0) else e0).
  set (e2 := if negb (Go.HasSuffix (rkgin.Path e1) "/")
             then rkgin.setPath e1 (rkgin.Path e1 +:+ "/") else e1).
  assert (H1 : Go.HasPrefix (rkgin.Path e1) "/" = true).
  { unfold e1. destruct (Go.HasPrefix (rkgin.Path e0) "/") eqn:H; simpl; [exact H|].
    apply (HasPrefix_app "/"). }
  assert (H2 : Go.HasPrefix (rkgin.Path e2) "/" = true /\ Go.HasSuffix (rkgin.Path e2) "/" = true).
  { unfold e2. destruct (Go.HasSuffix (rkgin.Path e1) "/") eqn:H; simpl.
    - auto.
    - split; [apply HasPrefix_app_r; exact H1|apply HasSuffix_app]. }
  assert (Hname : rkgin.EntryName e2 = rkgin.EntryName e0 /\ rkgin.Port e2 = rkgin.Port e0).
  { unfold e2, e1.
    destruct (Go.HasPrefix (rkgin.Path e0) "/"); simpl;
      match goal with |- context [Go.HasSuffix ?p "/"] => destruct (Go.HasSuffix p "/") end;
      simpl; auto. }
  destruct Hname as (Hname & Hport). destruct H2 as (Hpre & Hsuf).
  rewrite <- Hn, <- Hp, <- Hname, <- Hport.
  destruct (rkgin.EntryName e2) as [|c n] eqn:He; simpl.
  - repeat split; try assumption. discriminate.
  - rewrite He. repeat split; try assumption. discriminate.
Qed.

Example NewSwEntry_examples :
  rkgin.Path (rkgin.NewSwEntry None None []) = "/sw/" /\
  rkgin.Path (rkgin.NewSwEntry None None [rkgin.WithPathSw ""]) = "/sw/" /\
  rkgin.Path (rkgin.NewSwEntry None None [rkgin.WithPathSw "/"]) = "/" /\
  rkgin.Path (rkgin.NewSwEntry None None [rkgin.WithPathSw "docs/api"]) = "/docs/api/" /\
  rkgin.EntryName (rkgin.NewSwEntry None None [rkgin.WithNameSw ""; rkgin.WithPortSw 8080]) =
    "ginSwEntry-8080".
Proof. repeat split; reflexivity. Qed.

Lemma TrimSuffix_none (s suffix : string) :
  Go.HasSuffix s suffix = false -> Go.TrimSuffix s suffix = s.
Proof. intros H. unfold Go.TrimSuffix. rewrite H. reflexivity. Qed.

(** X17: a swagger file is served under its key.  For a path [/sw/key]
    that does not end with a slash and is not the path of the
    configuration, [ConfigFileHandler] serves the content stored under the
    key in [swaggerJsonFiles], with the key as its name, and answers not
    found when nothing is stored under the key. *)
Theorem ConfigFileHandler_serves_by_key (entry : rkgin.SwEntry)
    (swaggerJsonFiles : gmap string string) (swConfigFileContents : string)
    (index : option string) (key : string) :
  Go.HasSuffix ("/sw/" +:+ key) "/" = false ->
  key <> "swagger-config.json" ->
  snd (rkgin.ConfigFileHandler entry swaggerJsonFiles swConfigFileContents index
         ("/sw/" +:+ key)) =
    match swaggerJsonFiles !! key with
    | Some value => rkgin.ServeContent key value
    | None => rkgin.NotFound
    end.
Proof.
  intros Hslash Hkey. unfold rkgin.ConfigFileHandler. cbn [snd].
  rewrite (TrimSuffix_none _ _ Hslash), (TrimPrefix_app "/sw/" key).
  replace (String.eqb ("/sw/" +:+ key) "/sw") with false by (destruct key; reflexivity).
  replace (String.eqb ("/sw/" +:+ key) "/sw/swagger-config.json") with false.
  - reflexivity.
  - symmetry. change (String.eqb key "swagger-config.json" = false).
    apply String.eqb_neq. exact Hkey.
Qed.

Lemma ConfigFileHandler_serves_by_key_witness :
  snd (rkgin.ConfigFileHandler (rkgin.NewSwEntry None None [])
         {[ "greeter-api.swagger.json" := "{}" ]} "{urls}" None
         "/sw/greeter-api.swagger.json") =
    rkgin.ServeContent "greeter-api.swagger.json" "{}".
Proof.
  rewrite (ConfigFileHandler_serves_by_key (rkgin.NewSwEntry None None [])
             {[ "greeter-api.swagger.json" := "{}" ]} "{urls}" None
             "greeter-api.swagger.json" eq_refl).
  - reflexivity.
  - discriminate.
Defined.

(** X18: one trailing slash makes no difference to [ConfigFileHandler]:
    a path that does not end with a slash and the same path with a slash
    behind get the same headers and the same answer. *)
Theorem ConfigFileHandler_trailing_slash (entry : rkgin.SwEntry)
    (swaggerJsonFiles : gmap string string) (swConfigFileContents : string)
    (index : option string) (path : string) :
  Go.HasSuffix path "/" = false ->
  rkgin.ConfigFileHandler entry swaggerJsonFiles swConfigFileContents index (path +:+ "/") =
    rkgin.ConfigFileHandler entry swaggerJsonFiles swConfigFileContents index path.
Proof.
  intros H. unfold rkgin.ConfigFileHandler.
  rewrite TrimSuffix_app, (TrimSuffix_none _ _ H). reflexivity.
Qed.

Lemma ConfigFileHandler_trailing_slash_witness :
  rkgin.ConfigFileHandler (rkgin.NewSwEntry None None []) ∅ "{urls}" (Some "<html>") "/sw/" =
    ([("cache-control", "no-cache")], rkgin.ServeContent "index.html" "<html>").
Proof.
  rewrite (ConfigFileHandler_trailing_slash (rkgin.NewSwEntry None None []) ∅ "{urls}"
             (Some "<html>") "/sw" eq_refl).
  reflexivity.
Defined.
